(** * crypto-auto-trader: the agent decision pipeline, embedded and verified

    A shallow embedding of [risk_engine.py], [strategy_engine.py],
    [portfolio_engine.py], [agent_engine.py], [execution_engine.py] and
    [data_engine.py].

    Conventions of the embedding.
    - Python [float] values (prices, amounts, balances, percentages, P&L) are
      exact rationals, the canonical rationals [Qc] of the Standard Library,
      so that equality is Leibniz equality.  Rounding, infinities and NaN of
      IEEE arithmetic are outside the model.  The statements made here
      therefore speak of the numbers through comparisons and through the
      operations that the code performs on them, and avoid conclusions
      that hold in exact arithmetic only, such as a balance that returns
      to its earlier value after a debit and a credit.  What pandas and
      numpy compute (rolling means, the deviation of returns) is kept
      abstract; a NaN produced by a rolling mean over too few samples is
      an [option].  Where a statement of the specification turns on
      rounding, the arithmetic in question is replayed on binary64 floats
      (module [Doubles]).
    - Python [int] values (windows, counters, streaks, cooldown) are [Z].
    - A Python [dict] keyed by symbol is a [gmap string _].
    - A Python exception is the [Raise] constructor of [Result]; the state
      left behind by a call that raised is not described.
    - Each class is a [Module] holding a record [t] for the object and one
      function per method, taking the object first and returning the updated
      object.  An agent that holds a reference to an engine owned by the
      coordinator (the analyst's [strategy_engine], the guardian's
      [risk_engine]) receives that engine as an argument: there is a single
      copy, in the coordinator.
    - Free-form diagnostic text ([status], [reason], [note]) is an
      enumeration of its templates; numbers formatted into the text are kept
      as constructor arguments where a decision depends on them, and dropped
      otherwise.  Timestamps of the trade log are not modelled. *)

From Stdlib Require Import QArith Qcanon Lqa ZArith Lia.
From Stdlib Require PrimFloat Uint63.
From stdpp Require Import gmap strings list fin_maps numbers.

Local Open Scope Z_scope.
Local Open Scope Qc_scope.

(** ** Numbers *)

(** The rational [n/d] as a canonical rational. *)
Definition qc (n : Z) (d : positive) : Qc := Q2Qc (n # d).

(** [float(n)] for an integer [n]. *)
Definition of_Z (n : Z) : Qc := Q2Qc (inject_Z n).

(** Moves a goal and its hypotheses from [Qc] to [Q], where [lra] and [nra]
    apply. *)
Ltac qc2q :=
  repeat match goal with
  | H : @eq Qc _ _ |- _ => apply (f_equal this) in H
  | |- @eq Qc _ _ => apply Qc_is_canon
  end;
  unfold Qcle, Qclt, Qcdiv, Qcminus, Qcplus, Qcmult, Qcopp, Q2Qc, qc in *;
  simpl this in *;
  rewrite ?Qred_correct in *.

(** ** Exceptions *)

Inductive exn : Set :=
  | ZeroDivisionError   (* Python float division by zero *)
  | ValueError          (* pandas: "window must be an integer 0 or greater" *)
  | TypeError           (* a call whose arguments do not bind to the parameters *)
  | OverflowError.      (* datetime: "date value out of range" *)

Inductive Result (A : Type) : Type :=
  | Ok (a : A)
  | Raise (e : exn).
Arguments Ok {A} a.
Arguments Raise {A} e.

Global Instance Result_bind : MBind Result :=
  λ A B k r, match r with Ok a => k a | Raise e => Raise e end.

Global Instance Result_ret : MRet Result := λ A a, Ok a.

(** ** Signals *)

Inductive Signal : Set := BUY | SELL | HOLD.

Global Instance Signal_eq_dec : EqDecision Signal.
Proof. solve_decision. Defined.

(** ** Calls with keyword arguments *)

(** The value passed under a keyword, if any. *)
Fixpoint keyword_argument (name : string) (kwargs : list (string * Qc)) : option Qc :=
  match kwargs with
  | [] => None
  | (k, v) :: rest =>
      if bool_decide (k = name) then Some v else keyword_argument name rest
  end.

(** A call that passes all its arguments by keyword to a function whose
    parameters (after [self]) are [params], none with a default: each
    keyword is bound to the parameter of that name, and Python raises
    TypeError for a keyword that names no parameter and for a parameter
    left without argument.  The result lists the arguments in the order
    of the parameters. *)
Definition bind_keywords (params : list string) (kwargs : list (string * Qc))
    : Result (list Qc) :=
  if forallb (λ kw, bool_decide (kw.1 ∈ params)) kwargs then
    mapM (λ name,
            match keyword_argument name kwargs with
            | Some v => Ok v
            | None => Raise TypeError
            end) params
  else Raise TypeError.

(** * risk_engine.py *)

Module RiskEngine.

Record t : Type := mk {
  max_position_pct : Qc;
  max_exposure_pct : Qc
}.

(** [RiskEngine()] with its default arguments. *)
Definition default : t :=
  {| max_position_pct := qc 2 10; max_exposure_pct := qc 8 10 |}.

Definition validate_position_size
    (self : t) (current_portfolio_value proposed_trade_value : Qc) : bool :=
  let max_allowed_value := current_portfolio_value * max_position_pct self in
  bool_decide (proposed_trade_value ≤ max_allowed_value).

Definition validate_exposure
    (self : t)
    (current_portfolio_value total_open_positions_value proposed_trade_value : Qc)
    : bool :=
  let max_allowed_exposure := current_portfolio_value * max_exposure_pct self in
  bool_decide (total_open_positions_value + proposed_trade_value ≤ max_allowed_exposure).

Definition calculate_position_size
    (self : t) (current_portfolio_value current_price : Qc) : Result Qc :=
  let trade_value := current_portfolio_value * max_position_pct self in
  if decide (current_price = 0) then Raise ZeroDivisionError
  else Ok (trade_value / current_price).

(** The names of the parameters of [calculate_position_size]. *)
Definition calculate_position_size_params : list string :=
  ["current_portfolio_value"; "current_price"].

(** [calculate_position_size] called with keyword arguments. *)
Definition calculate_position_size_kw (self : t) (kwargs : list (string * Qc))
    : Result Qc :=
  args ← bind_keywords calculate_position_size_params kwargs;
  match args with
  | [current_portfolio_value; current_price] =>
      calculate_position_size self current_portfolio_value current_price
  | _ => Raise TypeError
  end.

(** Two independent guarded assignments; neither branch raises. *)
Definition update_risk_parameters
    (self : t) (max_position_pct' max_exposure_pct' : Qc) : t :=
  let self1 :=
    if bool_decide (0 < max_position_pct') && bool_decide (max_position_pct' ≤ 1)
    then {| max_position_pct := max_position_pct';
            max_exposure_pct := max_exposure_pct self |}
    else self in
  if bool_decide (0 < max_exposure_pct') && bool_decide (max_exposure_pct' ≤ 1)
  then {| max_position_pct := max_position_pct self1;
          max_exposure_pct := max_exposure_pct' |}
  else self1.

End RiskEngine.

(** * strategy_engine.py *)

Module StrategyEngine.

Record t : Type := mk {
  short_window : Z;
  long_window : Z
}.

Definition default : t := {| short_window := 20; long_window := 50 |}.

(** A comparison with NaN is false. *)
Definition nan_le (a b : option Qc) : bool :=
  match a, b with
  | Some x, Some y => bool_decide (x ≤ y)
  | _, _ => false
  end.

Definition nan_lt (a b : option Qc) : bool :=
  match a, b with
  | Some x, Some y => bool_decide (x < y)
  | _, _ => false
  end.

Section Signal.

(** [Series.rolling(window=w).mean()] on the column of closes: the
    column of window means that pandas computes, in floating point, with
    NaN (here [None]) where it has too few samples.  It is kept
    abstract; pandas raises ValueError for a negative window. *)
Variable rolling_mean : Z → list Qc → Result (list (option Qc)).

(** [historical_data] is the column of closing prices, oldest first.  The
    rows of the extended frame are pairs (sma_short, sma_long); they are
    read from the end, and a frame with a single row makes [iloc[-2]]
    raise the IndexError that the method catches. *)
Definition generate_signal (self : t) (historical_data : list Qc) : Result Signal :=
  if bool_decide (historical_data = [])
     || bool_decide (Z.of_nat (length historical_data) < long_window self)%Z
  then Ok HOLD
  else
    sma_short ← rolling_mean (short_window self) historical_data;
    sma_long ← rolling_mean (long_window self) historical_data;
    match reverse (zip sma_short sma_long) with
    | latest :: previous :: _ =>
        if bool_decide (latest.2 = None) || bool_decide (previous.2 = None)
        then Ok HOLD
        else if nan_le previous.1 previous.2 && nan_lt latest.2 latest.1
        then Ok BUY
        else if nan_le previous.2 previous.1 && nan_lt latest.1 latest.2
        then Ok SELL
        else Ok HOLD
    | _ => Ok HOLD
    end.

End Signal.

Definition update_strategy_parameters
    (self : t) (short_window' long_window' : Z) : t :=
  if bool_decide (0 < short_window')%Z && bool_decide (short_window' < long_window')%Z
  then {| short_window := short_window'; long_window := long_window' |}
  else self.

End StrategyEngine.

(** * portfolio_engine.py *)

Module PortfolioEngine.

Record Position : Type := mkPosition {
  amount : Qc;
  average_entry_price : Qc
}.

Record t : Type := mk {
  initial_balance : Qc;
  cash_balance : Qc;
  positions : gmap string Position
}.

(** [PortfolioEngine(initial_balance)]. *)
Definition init (initial_balance : Qc) : t :=
  {| initial_balance := initial_balance;
     cash_balance := initial_balance;
     positions := ∅ |}.

Definition set_cash (self : t) (c : Qc) : t :=
  {| initial_balance := initial_balance self;
     cash_balance := c;
     positions := positions self |}.

Definition set_positions (self : t) (m : gmap string Position) : t :=
  {| initial_balance := initial_balance self;
     cash_balance := cash_balance self;
     positions := m |}.

(** The loop adds [amount * price] for each held symbol that the price map
    knows; the sum does not depend on the order of the iteration. *)
Definition get_portfolio_value (self : t) (current_prices : gmap string Qc) : Qc :=
  map_fold
    (λ symbol position total_value,
       match current_prices !! symbol with
       | Some price => total_value + amount position * price
       | None => total_value
       end)
    (cash_balance self) (positions self).

(** Returns the ledger and the boolean result.  Merging a lot into an
    existing one divides by the new amount. *)
Definition add_position (self : t) (symbol : string) (amount' price : Qc)
    : Result (t * bool) :=
  let cost := amount' * price in
  if bool_decide (cash_balance self < cost) then Ok (self, false)
  else
    let self1 := set_cash self (cash_balance self - cost) in
    match positions self1 !! symbol with
    | Some pos =>
        let old_amount := amount pos in
        let old_price := average_entry_price pos in
        let new_amount := old_amount + amount' in
        if decide (new_amount = 0) then Raise ZeroDivisionError
        else
          let new_price := (old_amount * old_price + amount' * price) / new_amount in
          Ok (set_positions self1
                (<[symbol := {| amount := new_amount;
                                average_entry_price := new_price |}]>
                   (positions self1)),
              true)
    | None =>
        Ok (set_positions self1
              (<[symbol := {| amount := amount';
                              average_entry_price := price |}]>
                 (positions self1)),
            true)
    end.

Definition remove_position (self : t) (symbol : string) (amount' price : Qc)
    : t * bool :=
  match positions self !! symbol with
  | None => (self, false)
  | Some pos =>
      if bool_decide (amount pos < amount') then (self, false)
      else
        let sale_value := amount' * price in
        let self1 := set_cash self (cash_balance self + sale_value) in
        let pos' := {| amount := amount pos - amount';
                       average_entry_price := average_entry_price pos |} in
        if bool_decide (amount pos' < qc 1 100000000)
        then (set_positions self1 (delete symbol (positions self1)), true)
        else (set_positions self1 (<[symbol := pos']> (positions self1)), true)
  end.

Definition get_position (self : t) (symbol : string) : option Position :=
  positions self !! symbol.

Definition get_all_positions (self : t) : gmap string Position :=
  positions self.

Definition get_cash_balance (self : t) : Qc := cash_balance self.

End PortfolioEngine.

(** * agent_engine.py *)

Module BaseAgent.

Record Memory : Type := mkMemory {
  total_trades : Z;
  wins : Z;
  losses : Z;
  current_streak : Z;
  adaptations : list string
}.

(** The memory that [__init__] installs. *)
Definition init_memory : Memory :=
  {| total_trades := 0; wins := 0; losses := 0; current_streak := 0;
     adaptations := [] |}.

Definition set_adaptations (m : Memory) (l : list string) : Memory :=
  {| total_trades := total_trades m; wins := wins m; losses := losses m;
     current_streak := current_streak m; adaptations := l |}.

(** The body of [update_memory] up to, and excluding, the call of the
    [_adapt] hook. *)
Definition record_outcome (m : Memory) (realized_pnl : Qc) : Memory :=
  let total := (total_trades m + 1)%Z in
  if bool_decide (0 < realized_pnl) then
    {| total_trades := total;
       wins := (wins m + 1)%Z;
       losses := losses m;
       current_streak :=
         if bool_decide (0 < current_streak m)%Z
         then (current_streak m + 1)%Z else 1%Z;
       adaptations := adaptations m |}
  else if bool_decide (realized_pnl < 0) then
    {| total_trades := total;
       wins := wins m;
       losses := (losses m + 1)%Z;
       current_streak :=
         if bool_decide (current_streak m < 0)%Z
         then (current_streak m - 1)%Z else (-1)%Z;
       adaptations := adaptations m |}
  else
    {| total_trades := total; wins := wins m; losses := losses m;
       current_streak := current_streak m; adaptations := adaptations m |}.

(** The abstract base class: an agent owns a memory and implements the
    adaptation hook. *)
Class Agent (A : Type) : Type := {
  get_memory : A → Memory;
  set_memory : A → Memory → A;
  _adapt : A → A
}.

Definition update_memory {A} `{Agent A} (self : A) (realized_pnl : Qc) : A :=
  _adapt (set_memory self (record_outcome (get_memory self) realized_pnl)).

End BaseAgent.

Module ScoutAgent.
Import BaseAgent.

Inductive Status : Type :=
  | Idle
  | WaitingForData
  | Scanned (volatility : Qc).

Inductive Reason : Type :=
  | InsufficientData
  | Indicators                                (* no suffix *)
  | RejectedHighVolatility (threshold : Qc)
  | StrongPositiveMomentum
  | StrongNegativeMomentum.

Record Decision : Type := mkDecision {
  signal : Signal;
  reason : Reason;
  volatility : option Qc     (* the key is absent on insufficient data *)
}.

Record t : Type := mk {
  name : string;
  status : Status;
  last_decision : option Decision;
  memory : Memory;
  volatility_threshold : Qc
}.

Definition init : t :=
  {| name := "Scout"; status := Idle; last_decision := None;
     memory := init_memory; volatility_threshold := qc 5 100 |}.

Definition _adapt (self : t) : t :=
  if bool_decide (current_streak (memory self) ≤ -3)%Z then
    {| name := name self; status := status self;
       last_decision := last_decision self;
       memory := set_adaptations (memory self)
                   ["Tightened Volatility Filter (Loss Streak)"];
       volatility_threshold := qc 2 100 |}
  else
    {| name := name self; status := status self;
       last_decision := last_decision self;
       memory := set_adaptations (memory self) [];
       volatility_threshold := qc 5 100 |}.

Global Instance agent : Agent t := {|
  get_memory := memory;
  set_memory self m :=
    {| name := name self; status := status self;
       last_decision := last_decision self; memory := m;
       volatility_threshold := volatility_threshold self |};
  BaseAgent._adapt := _adapt
|}.

(** [momentum > c] for [momentum = (last - base) / base] computed on numpy
    floats, where a zero [base] gives an infinity of the sign of the
    numerator (or NaN, which compares false) instead of raising. *)
Definition momentum_above (last base c : Qc) : bool :=
  if decide (base = 0) then bool_decide (0 < last - base)
  else bool_decide (c < (last - base) / base).

Definition momentum_below (last base c : Qc) : bool :=
  if decide (base = 0) then bool_decide (last - base < 0)
  else bool_decide ((last - base) / base < c).

Section Scan.

(** [returns.std() * np.sqrt(len(returns))] over the percentage returns
    of the closing prices: a pandas and numpy computation with square
    roots, kept abstract. *)
Variable returns_volatility : list Qc → Qc.

Definition with_scan (self : t) (st : Status) (d : Decision) : t * Decision :=
  ({| name := name self; status := st; last_decision := Some d;
      memory := memory self;
      volatility_threshold := volatility_threshold self |}, d).

Definition scan (self : t) (historical_data : list Qc) : t * Decision :=
  match reverse historical_data with
  | last :: _ :: _ :: _ :: base :: _ =>
      let volatility := returns_volatility historical_data in
      let '(signal, reason) :=
        if bool_decide (volatility_threshold self < volatility)
        then (HOLD, RejectedHighVolatility (volatility_threshold self))
        else if momentum_above last base (qc 1 100)
        then (BUY, StrongPositiveMomentum)
        else if momentum_below last base (- qc 1 100)
        then (SELL, StrongNegativeMomentum)
        else (HOLD, Indicators) in
      with_scan self (Scanned volatility)
        {| signal := signal; reason := reason; volatility := Some volatility |}
  | _ =>
      (* empty, or fewer than five rows *)
      with_scan self WaitingForData
        {| signal := HOLD; reason := InsufficientData; volatility := None |}
  end.

End Scan.

End ScoutAgent.

Module AnalystAgent.
Import BaseAgent.

Inductive Status : Type :=
  | Idle
  | Analyzed (output : Signal).

Inductive Reason : Type :=
  | SmaOnly (sma : Signal)                          (* no suffix *)
  | ConfirmedByScoutAlignment (sma : Signal)
  | RejectedScoutDivergence (sma scout : Signal)
  | BaseStrategyExecuting (sma : Signal).

Record Decision : Type := mkDecision {
  signal : Signal;
  reason : Reason
}.

Record t : Type := mk {
  name : string;
  status : Status;
  last_decision : option Decision;
  memory : Memory;
  requires_scout_alignment : bool
}.

Definition init : t :=
  {| name := "Analyst"; status := Idle; last_decision := None;
     memory := init_memory; requires_scout_alignment := false |}.

Definition _adapt (self : t) : t :=
  if bool_decide (current_streak (memory self) ≤ -2)%Z then
    {| name := name self; status := status self;
       last_decision := last_decision self;
       memory := set_adaptations (memory self)
                   ["Requiring Scout Alignment (Loss Streak)"];
       requires_scout_alignment := true |}
  else if bool_decide (2 ≤ current_streak (memory self))%Z then
    {| name := name self; status := status self;
       last_decision := last_decision self;
       memory := set_adaptations (memory self)
                   ["Relaxed Alignment (Win Streak)"];
       requires_scout_alignment := false |}
  else
    {| name := name self; status := status self;
       last_decision := last_decision self;
       memory := set_adaptations (memory self) [];
       requires_scout_alignment := requires_scout_alignment self |}.

Global Instance agent : Agent t := {|
  get_memory := memory;
  set_memory self m :=
    {| name := name self; status := status self;
       last_decision := last_decision self; memory := m;
       requires_scout_alignment := requires_scout_alignment self |};
  BaseAgent._adapt := _adapt
|}.

Section Analyze.

Variable rolling_mean : Z → list Qc → Result (list (option Qc)).

Definition analyze
    (self : t) (strategy_engine : StrategyEngine.t)
    (scout_signal : ScoutAgent.Decision) (historical_data : list Qc)
    : Result (t * Decision) :=
  sma_signal ←
    StrategyEngine.generate_signal rolling_mean strategy_engine historical_data;
  let d :=
    if bool_decide (sma_signal ≠ HOLD) then
      if requires_scout_alignment self then
        if bool_decide (sma_signal = ScoutAgent.signal scout_signal)
        then {| signal := sma_signal;
                reason := ConfirmedByScoutAlignment sma_signal |}
        else {| signal := HOLD;
                reason := RejectedScoutDivergence sma_signal
                            (ScoutAgent.signal scout_signal) |}
      else {| signal := sma_signal; reason := BaseStrategyExecuting sma_signal |}
    else {| signal := HOLD; reason := SmaOnly sma_signal |} in
  Ok ({| name := name self; status := Analyzed (signal d);
         last_decision := Some d; memory := memory self;
         requires_scout_alignment := requires_scout_alignment self |}, d).

End Analyze.

End AnalystAgent.

Module RiskGuardianAgent.
Import BaseAgent.

Inductive Status : Type :=
  | Idle
  | CooldownActive (cycles_left : Z)
  | CooldownFinished
  | NoActionRequired
  | ApprovedSELL
  | ApprovedBUY
  | RejectedBUY.

Inductive Limit : Set := MaxPositionSizeLimit | MaxExposureLimit.

Inductive Reason : Type :=
  | BlockedByActiveCooldown
  | NoTradeProposed
  | SellApprovedByRiskLogic
  | SizingApproved (modifier : Qc)
  | RiskRejected (limit : Limit).

Record Decision : Type := mkDecision {
  signal : Signal;
  amount : Qc;           (* -1 on SELL: sell the full position *)
  reason : Reason
}.

Record t : Type := mk {
  name : string;
  status : Status;
  last_decision : option Decision;
  memory : Memory;
  cooldown_cycles_remaining : Z;
  size_modifier : Qc
}.

Definition init : t :=
  {| name := "Risk Guardian"; status := Idle; last_decision := None;
     memory := init_memory; cooldown_cycles_remaining := 0;
     size_modifier := 1 |}.

(** The three fields that [_adapt] assigns. *)
Definition adapted (self : t) (labels : list string) (cooldown : Z) (modifier : Qc) : t :=
  {| name := name self; status := status self;
     last_decision := last_decision self;
     memory := set_adaptations (memory self) labels;
     cooldown_cycles_remaining := cooldown;
     size_modifier := modifier |}.

Definition _adapt (self : t) : t :=
  let streak := current_streak (memory self) in
  if bool_decide (streak ≤ -3)%Z then
    adapted self ["Active Cooldown"; "Reduced Sizing (-50%)"]
      (if bool_decide (cooldown_cycles_remaining self = 0%Z)
       then 5%Z else cooldown_cycles_remaining self)
      (qc 1 2)
  else if bool_decide (streak ≤ -1)%Z then
    adapted self ["Cautious Sizing (-25%)"] (cooldown_cycles_remaining self) (qc 3 4)
  else if bool_decide (3 ≤ streak)%Z then
    adapted self ["Aggressive Sizing (+25%)"] (cooldown_cycles_remaining self) (qc 5 4)
  else
    adapted self [] (cooldown_cycles_remaining self) 1.

Global Instance agent : Agent t := {|
  get_memory := memory;
  set_memory self m :=
    {| name := name self; status := status self;
       last_decision := last_decision self; memory := m;
       cooldown_cycles_remaining := cooldown_cycles_remaining self;
       size_modifier := size_modifier self |};
  BaseAgent._adapt := _adapt
|}.

Definition set_cooldown (self : t) (n : Z) : t :=
  {| name := name self; status := status self;
     last_decision := last_decision self; memory := memory self;
     cooldown_cycles_remaining := n; size_modifier := size_modifier self |}.

(** The assignments to [status] and [last_decision] that end every path
    of [evaluate], and its return value. *)
Definition decide_with (self : t) (st : Status) (d : Decision) : t * Decision :=
  ({| name := name self; status := st; last_decision := Some d;
      memory := memory self;
      cooldown_cycles_remaining := cooldown_cycles_remaining self;
      size_modifier := size_modifier self |}, d).

(** The BUY branch calls [calculate_position_size] with the keywords
    [portfolio_value] and [current_price]. *)
Definition evaluate
    (self : t) (risk_engine : RiskEngine.t)
    (analyst_proposal : AnalystAgent.Decision)
    (current_portfolio_value total_open_value current_price : Qc)
    : Result (t * Decision) :=
  let signal := AnalystAgent.signal analyst_proposal in
  if bool_decide (0 < cooldown_cycles_remaining self)%Z then
    let self1 := set_cooldown self (cooldown_cycles_remaining self - 1)%Z in
    let blocked :=
      {| signal := HOLD; amount := 0; reason := BlockedByActiveCooldown |} in
    if bool_decide (0 < cooldown_cycles_remaining self1)%Z
    then Ok (decide_with self1
               (CooldownActive (cooldown_cycles_remaining self1)) blocked)
    else Ok (decide_with (_adapt self1) CooldownFinished blocked)
  else if bool_decide (signal = HOLD) then
    Ok (decide_with self NoActionRequired
          {| signal := HOLD; amount := 0; reason := NoTradeProposed |})
  else if bool_decide (signal = SELL) then
    Ok (decide_with self ApprovedSELL
          {| signal := SELL; amount := -1; reason := SellApprovedByRiskLogic |})
  else
    base_calc_amount ←
      RiskEngine.calculate_position_size_kw risk_engine
        [("portfolio_value", current_portfolio_value);
         ("current_price", current_price)];
    let proposed_amount := base_calc_amount * size_modifier self in
    let proposed_value := proposed_amount * current_price in
    let valid_size :=
      RiskEngine.validate_position_size risk_engine
        current_portfolio_value proposed_value in
    let valid_exposure :=
      RiskEngine.validate_exposure risk_engine
        current_portfolio_value total_open_value proposed_value in
    if valid_size && valid_exposure then
      Ok (decide_with self ApprovedBUY
            {| signal := BUY; amount := proposed_amount;
               reason := SizingApproved (size_modifier self) |})
    else
      let limit := if negb valid_size then MaxPositionSizeLimit
                   else MaxExposureLimit in
      Ok (decide_with self RejectedBUY
            {| signal := HOLD; amount := 0; reason := RiskRejected limit |}).

End RiskGuardianAgent.

(** * execution_engine.py *)

Module ExecutionEngine.
Import BaseAgent.

Inductive Action : Set := LogBUY | LogSELL | REJECTED_FUNDS.

Inductive Note : Type :=
  | PipelineExecuted (modifier : Qc)
  | InsufficientCashBalance
  | PnlMemoryUpdated (realized_pnl : Qc).

Record TradeLogEntry : Type := mkEntry {
  symbol : string;
  action : Action;
  amount : Qc;
  price : Qc;
  value : Qc;
  note : Note
}.

Record t : Type := mk {
  portfolio : PortfolioEngine.t;
  risk : RiskEngine.t;
  strategy : StrategyEngine.t;
  trade_history : list TradeLogEntry;
  scout : ScoutAgent.t;
  analyst : AnalystAgent.t;
  guardian : RiskGuardianAgent.t
}.

(** [ExecutionEngine(portfolio, risk, strategy)]. *)
Definition init (portfolio : PortfolioEngine.t) (risk : RiskEngine.t)
    (strategy : StrategyEngine.t) : t :=
  {| portfolio := portfolio; risk := risk; strategy := strategy;
     trade_history := [];
     scout := ScoutAgent.init; analyst := AnalystAgent.init;
     guardian := RiskGuardianAgent.init |}.

Definition _log_trade (self : t) (symbol : string) (action : Action)
    (amount price : Qc) (note : Note) : t :=
  let log_entry :=
    {| symbol := symbol; action := action; amount := amount; price := price;
       value := amount * price; note := note |} in
  {| portfolio := portfolio self; risk := risk self; strategy := strategy self;
     trade_history := trade_history self ++ [log_entry];
     scout := scout self; analyst := analyst self; guardian := guardian self |}.

Definition get_trade_history (self : t) : list TradeLogEntry :=
  trade_history self.

(** The sum over all open positions of [amount] times the price found in
    [current_prices], or the entry price when the symbol has none. *)
Definition total_open_value_of
    (open_positions : gmap string PortfolioEngine.Position)
    (current_prices : gmap string Qc) : Qc :=
  map_fold
    (λ sym pos total,
       total + PortfolioEngine.amount pos
               * default (PortfolioEngine.average_entry_price pos)
                   (current_prices !! sym))
    0 open_positions.

Definition with_agents (self : t) (s : ScoutAgent.t) (a : AnalystAgent.t)
    (g : RiskGuardianAgent.t) : t :=
  {| portfolio := portfolio self; risk := risk self; strategy := strategy self;
     trade_history := trade_history self;
     scout := s; analyst := a; guardian := g |}.

Definition with_portfolio (self : t) (p : PortfolioEngine.t) : t :=
  {| portfolio := p; risk := risk self; strategy := strategy self;
     trade_history := trade_history self;
     scout := scout self; analyst := analyst self; guardian := guardian self |}.

(** The two risk inputs that a cycle extracts from the ledger for the
    guardian: [portfolio_value] and [total_open_value], both under the
    price map that holds the traded symbol alone. *)
Definition risk_inputs (self : t) (symbol : string) (current_price : Qc)
    : Qc * Qc :=
  let current_prices : gmap string Qc := {[ symbol := current_price ]} in
  let portfolio_value :=
    PortfolioEngine.get_portfolio_value (portfolio self) current_prices in
  let open_positions := PortfolioEngine.get_all_positions (portfolio self) in
  let total_open_value := total_open_value_of open_positions current_prices in
  (portfolio_value, total_open_value).

Section Cycle.

Variable rolling_mean : Z → list Qc → Result (list (option Qc)).
Variable returns_volatility : list Qc → Qc.

(** Steps 1 to 3 of the cycle: the three agents run in turn on the
    ledger as it stands; the result carries the two risk inputs that
    the guardian received and its decision. *)
Definition decide_cycle (self : t) (symbol : string) (current_price : Qc)
    (historical_data : list Qc)
    : Result (t * (Qc * Qc) * RiskGuardianAgent.Decision) :=
  let '(scout', scout_signal) :=
    ScoutAgent.scan returns_volatility (scout self) historical_data in
  '(analyst', analyst_proposal) ←
    AnalystAgent.analyze rolling_mean (analyst self) (strategy self)
      scout_signal historical_data;
  let '(portfolio_value, total_open_value) :=
    risk_inputs self symbol current_price in
  '(guardian', guardian_decision) ←
    RiskGuardianAgent.evaluate (guardian self) (risk self) analyst_proposal
      portfolio_value total_open_value current_price;
  Ok (with_agents self scout' analyst' guardian',
      (portfolio_value, total_open_value), guardian_decision).

(** Step 4: the execution logic on the guardian's decision.  In the
    SELL branch [position] is read before [remove_position] updates it
    in place; [amount_to_sell] and [entry_price] are the values the
    position had then (the update leaves the entry price alone). *)
Definition settle (self : t) (symbol : string) (current_price : Qc)
    (guardian_decision : RiskGuardianAgent.Decision) : Result t :=
  let final_action := RiskGuardianAgent.signal guardian_decision in
  if bool_decide (final_action = BUY) then
    let proposed_amount := RiskGuardianAgent.amount guardian_decision in
    '(portfolio', success) ←
      PortfolioEngine.add_position (portfolio self) symbol proposed_amount
        current_price;
    let self1 := with_portfolio self portfolio' in
    if (success : bool)
    then Ok (_log_trade self1 symbol LogBUY proposed_amount current_price
               (PipelineExecuted
                  (RiskGuardianAgent.size_modifier (guardian self1))))
    else Ok (_log_trade self1 symbol REJECTED_FUNDS proposed_amount
               current_price InsufficientCashBalance)
  else if bool_decide (final_action = SELL) then
    match PortfolioEngine.get_position (portfolio self) symbol with
    | Some position =>
        if bool_decide (0 < PortfolioEngine.amount position) then
          let amount_to_sell := PortfolioEngine.amount position in
          let '(portfolio', success) :=
            PortfolioEngine.remove_position (portfolio self) symbol
              amount_to_sell current_price in
          let self1 := with_portfolio self portfolio' in
          if (success : bool) then
            let entry_price := PortfolioEngine.average_entry_price position in
            let realized_pnl := (current_price - entry_price) * amount_to_sell in
            let self2 :=
              with_agents self1
                (update_memory (scout self1) realized_pnl)
                (update_memory (analyst self1) realized_pnl)
                (update_memory (guardian self1) realized_pnl) in
            Ok (_log_trade self2 symbol LogSELL amount_to_sell current_price
                  (PnlMemoryUpdated realized_pnl))
          else Ok self1
        else Ok self
    | None => Ok self
    end
  else Ok self.

Definition execute_cycle (self : t) (symbol : string) (current_price : Qc)
    (historical_data : list Qc) : Result t :=
  '(self1, _, guardian_decision) ←
    decide_cycle self symbol current_price historical_data;
  settle self1 symbol current_price guardian_decision.

End Cycle.

End ExecutionEngine.

(** * data_engine.py *)

(** The simulated price feed.  The two calls of [np.random.uniform] are
    not modelled as randomness: each method takes the numbers drawn as an
    argument, and the statements about it quantify over the draws within
    the bounds the code passes to [uniform].  Of the timestamps
    ([start_time], the [open_time] column) the model keeps what decides
    whether they can be computed; a frame of klines is its column of
    closes, oldest first. *)
Module DataEngine.

Record t : Type := mk {
  current_prices : gmap string Qc
}.

(** [DataEngine()]. *)
Definition init : t := {| current_prices := ∅ |}.

(** [sub in s] on Python strings: [sub] occurs somewhere in [s]. *)
Fixpoint contains (sub s : string) : bool :=
  String.prefix sub s
  || match s with
     | EmptyString => false
     | String _ rest => contains sub rest
     end.

(** The arbitrary starting price of a symbol. *)
Definition starting_price (symbol : string) : Qc :=
  if contains "BTC" symbol then qc 60000 1
  else if contains "ETH" symbol then qc 3000 1
  else qc 100 1.

Definition _initialize_symbol (self : t) (symbol : string) : t :=
  match current_prices self !! symbol with
  | Some _ => self
  | None =>
      {| current_prices := <[symbol := starting_price symbol]> (current_prices self) |}
  end.





End DataEngine.

(** * Vocabulary of the statements *)

(** The bound on a risk percentage: the half-open unit interval (0, 1]. *)
Definition in_unit (x : Qc) : Prop := 0 < x ∧ x ≤ 1.

(** The data-model invariant of the risk limits, kept by every update. *)
Definition risk_wf (r : RiskEngine.t) : Prop :=
  in_unit (RiskEngine.max_position_pct r) ∧ in_unit (RiskEngine.max_exposure_pct r).

(** What the statements about [update_memory] need of an agent: reading
    back the memory just stored, and an adaptation hook that leaves the
    streak alone. *)
Class LawfulAgent (A : Type) `{BaseAgent.Agent A} : Prop := {
  get_set_memory (a : A) (m : BaseAgent.Memory) :
    BaseAgent.get_memory (BaseAgent.set_memory a m) = m;
  adapt_keeps_streak (a : A) :
    BaseAgent.current_streak (BaseAgent.get_memory (BaseAgent._adapt a))
    = BaseAgent.current_streak (BaseAgent.get_memory a)
}.

(** The streak an agent reports. *)
Definition streak_of {A} `{BaseAgent.Agent A} (a : A) : Z :=
  BaseAgent.current_streak (BaseAgent.get_memory a).

(** One call of [RiskGuardianAgent.evaluate]: its four arguments. *)
Record Call : Type := mkCall {
  call_proposal : AnalystAgent.Decision;
  call_portfolio_value : Qc;
  call_open_value : Qc;
  call_price : Qc
}.

(** Consecutive calls of [evaluate] on one guardian, with nothing else
    touching it in between; the decisions are collected in call order. *)
Fixpoint evaluate_calls (g : RiskGuardianAgent.t) (risk : RiskEngine.t)
    (calls : list Call) : Result (RiskGuardianAgent.t * list RiskGuardianAgent.Decision) :=
  match calls with
  | [] => Ok (g, [])
  | c :: rest =>
      '(g1, d) ←
        RiskGuardianAgent.evaluate g risk (call_proposal c)
          (call_portfolio_value c) (call_open_value c) (call_price c);
      '(g2, ds) ← evaluate_calls g1 risk rest;
      Ok (g2, d :: ds)
  end.

(** The decision of a call that the cooldown blocks. *)
Definition blocked : RiskGuardianAgent.Decision :=
  {| RiskGuardianAgent.signal := HOLD;
     RiskGuardianAgent.amount := 0;
     RiskGuardianAgent.reason := RiskGuardianAgent.BlockedByActiveCooldown |}.

(** A proposal of the analyst with the given signal. *)
Definition propose (s : Signal) : AnalystAgent.Decision :=
  {| AnalystAgent.signal := s;
     AnalystAgent.reason := AnalystAgent.BaseStrategyExecuting s |}.

(** A guardian after [n] losing trades in a row, each reported through
    [update_memory]. *)
Fixpoint guardian_after_losses (n : nat) : RiskGuardianAgent.t :=
  match n with
  | O => RiskGuardianAgent.init
  | S k => BaseAgent.update_memory (guardian_after_losses k) (- 1)
  end.

(** *** Moving averages *)

(** What is assumed of pandas' rolling mean: a window that is not
    negative gives a column, and the column has one entry per sample. *)
Record rolling_spec (rolling_mean : Z → list Qc → Result (list (option Qc)))
    : Prop := {
  rolling_returns (w : Z) (xs : list Qc) :
    (0 ≤ w)%Z → ∃ col, rolling_mean w xs = Ok col;
  rolling_length (w : Z) (xs : list Qc) (col : list (option Qc)) :
    rolling_mean w xs = Ok col → length col = length xs
}.

(** The moving average of window [w] at the sample [k] places before the
    last one ([k = 0] is the last sample, [k = 1] the second-to-last), as
    the code reads it: the entry of the column that pandas computed.  It
    is undefined where that entry is NaN and where the series has no such
    sample. *)
Definition sma_back (rolling_mean : Z → list Qc → Result (list (option Qc)))
    (w : Z) (series : list Qc) (k : nat) : option Qc :=
  match rolling_mean w series with
  | Ok col => mjoin (reverse col !! k)
  | Raise _ => None
  end.

Section Crossovers.

Variable rolling_mean : Z → list Qc → Result (list (option Qc)).

(** Short at or below long at the second-to-last sample, short strictly
    above long at the last one; all four averages defined. *)
Definition bullish_crossover (s : StrategyEngine.t) (series : list Qc) : Prop :=
  ∃ short_prev long_prev short_last long_last : Qc,
    sma_back rolling_mean (StrategyEngine.short_window s) series 1 = Some short_prev
    ∧ sma_back rolling_mean (StrategyEngine.long_window s) series 1 = Some long_prev
    ∧ sma_back rolling_mean (StrategyEngine.short_window s) series 0 = Some short_last
    ∧ sma_back rolling_mean (StrategyEngine.long_window s) series 0 = Some long_last
    ∧ short_prev ≤ long_prev ∧ long_last < short_last.

(** The mirror image: short at or above long, then strictly below. *)
Definition bearish_crossover (s : StrategyEngine.t) (series : list Qc) : Prop :=
  ∃ short_prev long_prev short_last long_last : Qc,
    sma_back rolling_mean (StrategyEngine.short_window s) series 1 = Some short_prev
    ∧ sma_back rolling_mean (StrategyEngine.long_window s) series 1 = Some long_prev
    ∧ sma_back rolling_mean (StrategyEngine.short_window s) series 0 = Some short_last
    ∧ sma_back rolling_mean (StrategyEngine.long_window s) series 0 = Some long_last
    ∧ long_prev ≤ short_prev ∧ short_last < long_last.

End Crossovers.

(** *** A rolling mean to run examples on *)

(** The arithmetic mean of a non-empty window, in exact arithmetic. *)
Definition mean (l : list Qc) : Qc :=
  foldr Qcplus 0 l / of_Z (Z.of_nat (length l)).

(** One pass over the series: [recent] holds the samples seen so far,
    newest first.  A position with fewer than [w] samples behind it (or
    any position, for [w = 0]) is NaN. *)
Fixpoint rolling_from (w : nat) (recent : list Qc) (xs : list Qc)
    : list (option Qc) :=
  match xs with
  | [] => []
  | x :: rest =>
      let recent' := x :: recent in
      (if bool_decide (w = 0%nat) || bool_decide (length recent' < w)%nat
       then None
       else Some (mean (take w recent')))
      :: rolling_from w recent' rest
  end.

(** A rolling mean without rounding.  It stands for pandas' in the
    examples only, on series of whole numbers whose window means are
    halves and quarters: there the doubles that pandas computes are these
    very numbers. *)
Definition exact_rolling_mean (window : Z) (xs : list Qc)
    : Result (list (option Qc)) :=
  if bool_decide (window < 0)%Z then Raise ValueError
  else Ok (rolling_from (Z.to_nat window) [] xs).

(** The branch of [generate_signal] on the last two rows of the frame. *)
Definition crossover_of (previous latest : option Qc * option Qc) : Signal :=
  if bool_decide (latest.2 = None) || bool_decide (previous.2 = None)
  then HOLD
  else if StrategyEngine.nan_le previous.1 previous.2
          && StrategyEngine.nan_lt latest.2 latest.1
  then BUY
  else if StrategyEngine.nan_le previous.2 previous.1
          && StrategyEngine.nan_lt latest.1 latest.2
  then SELL
  else HOLD.

(** A series of eight closes that dips and recovers. *)
Definition recovering_series : list Qc :=
  [qc 10 1; qc 10 1; qc 10 1; qc 10 1; qc 9 1; qc 8 1; qc 9 1; qc 14 1].

(** *** The ledger *)

(** The threshold [1e-8] below which [remove_position] drops an entry. *)
Definition dust : Qc := qc 1 100000000.

(** The ledgers that calls of [add_position] and [remove_position] with
    non-negative amounts and positive prices produce from a fresh engine.
    A call that raises produces no ledger. *)
Inductive reachable : PortfolioEngine.t → Prop :=
  | reachable_init (initial_balance : Qc) :
      reachable (PortfolioEngine.init initial_balance)
  | reachable_add s symbol amount price s' ok :
      reachable s → 0 ≤ amount → 0 < price →
      PortfolioEngine.add_position s symbol amount price = Ok (s', ok) →
      reachable s'
  | reachable_remove s symbol amount price s' ok :
      reachable s → 0 ≤ amount → 0 < price →
      PortfolioEngine.remove_position s symbol amount price = (s', ok) →
      reachable s'.

(** The amount held of a symbol, zero when there is no entry. *)
Definition held_amount (s : PortfolioEngine.t) (symbol : string) : Qc :=
  match PortfolioEngine.positions s !! symbol with
  | Some pos => PortfolioEngine.amount pos
  | None => 0
  end.


(** A fresh ledger of 10000 after buying [2^-30] units at 100. *)
Definition dust_ledger : PortfolioEngine.t :=
  {| PortfolioEngine.initial_balance := qc 10000 1;
     PortfolioEngine.cash_balance := qc 10000 1 - qc 1 1073741824 * qc 100 1;
     PortfolioEngine.positions :=
       {[ "BTCUSDT" := {| PortfolioEngine.amount := qc 1 1073741824;
                          PortfolioEngine.average_entry_price := qc 100 1 |} ]} |}.

(** A fresh ledger of 1100 after buying one unit at 100. *)
Definition held_ledger : PortfolioEngine.t :=
  {| PortfolioEngine.initial_balance := qc 1100 1;
     PortfolioEngine.cash_balance := qc 1100 1 - 1 * qc 100 1;
     PortfolioEngine.positions :=
       {[ "BTCUSDT" := {| PortfolioEngine.amount := 1;
                          PortfolioEngine.average_entry_price := qc 100 1 |} ]} |}.

(** *** The cash arithmetic on doubles *)

Module Doubles.

(** The double nearest to [n / d], for integers that doubles hold
    exactly: what Python reads from the decimal literal. *)
Definition double (n d : Z) : PrimFloat.float :=
  PrimFloat.div (PrimFloat.of_uint63 (Uint63.of_Z n))
                (PrimFloat.of_uint63 (Uint63.of_Z d)).

(** [add_position]: [cost = amount * price], [cash_balance -= cost]. *)
Definition cash_after_buy (cash amount price : PrimFloat.float) : PrimFloat.float :=
  PrimFloat.sub cash (PrimFloat.mul amount price).

(** [remove_position]: [sale_value = amount * price],
    [cash_balance += sale_value]. *)
Definition cash_after_sale (cash amount price : PrimFloat.float) : PrimFloat.float :=
  PrimFloat.add cash (PrimFloat.mul amount price).

End Doubles.

(** *** The cycle *)

(** The outcome counters of a memory: what [update_memory] writes before
    it calls the adaptation hook. *)
Definition outcomes (m : BaseAgent.Memory) : Z * Z * Z * Z :=
  (BaseAgent.total_trades m, BaseAgent.wins m, BaseAgent.losses m,
   BaseAgent.current_streak m).

(** The price map that [execute_cycle] builds: the traded symbol alone. *)
Definition cycle_prices (symbol : string) (current_price : Qc) : gmap string Qc :=
  {[ symbol := current_price ]}.

(** The arguments of one call of [execute_cycle]. *)
Record Cycle : Type := mkCycle {
  cycle_symbol : string;
  cycle_price : Qc;
  cycle_history : list Qc
}.

(** Consecutive cycles on one coordinator. *)
Fixpoint run_cycles (rolling_mean : Z → list Qc → Result (list (option Qc)))
    (returns_volatility : list Qc → Qc) (e : ExecutionEngine.t)
    (cycles : list Cycle) : Result ExecutionEngine.t :=
  match cycles with
  | [] => Ok e
  | c :: rest =>
      e' ← ExecutionEngine.execute_cycle rolling_mean returns_volatility e
             (cycle_symbol c) (cycle_price c) (cycle_history c);
      run_cycles rolling_mean returns_volatility e' rest
  end.

(** A volatility measure for the examples, all of which run on histories
    of fewer than five closes: there [scan] returns before it measures
    anything, and the value is never read. *)
Definition unread_volatility : list Qc → Qc := λ _, 0.

(** Three closes that end in a fall: with windows 1 and 2 the averages
    are 10 against 10, then 8 against 9. *)
Definition falling_closes : list Qc := [qc 10 1; qc 10 1; qc 8 1].

(** The strategy with windows 1 and 2. *)
Definition quick_strategy : StrategyEngine.t :=
  {| StrategyEngine.short_window := 1; StrategyEngine.long_window := 2 |}.

(** A coordinator built on a ledger that holds one unit bought at 100. *)
Definition engine_holding : ExecutionEngine.t :=
  ExecutionEngine.init held_ledger RiskEngine.default quick_strategy.

(** A coordinator on a fresh ledger of 10000 with the default limits and
    windows. *)
Definition fresh_engine : ExecutionEngine.t :=
  ExecutionEngine.init (PortfolioEngine.init (qc 10000 1)) RiskEngine.default
    StrategyEngine.default.

(** The same coordinator once its guardian has been told of three losing
    trades through [update_memory]: the guardian is on a streak of -3 and
    has started a cooldown of 5. *)
Definition engine_cooling : ExecutionEngine.t :=
  ExecutionEngine.with_agents fresh_engine
    (ExecutionEngine.scout fresh_engine) (ExecutionEngine.analyst fresh_engine)
    (guardian_after_losses 3).

(** A cycle on an empty history. *)
Definition idle_cycle : Cycle := mkCycle "BTCUSDT" (qc 100 1) [].


(** The decision of a cycle's decision steps, if they return. *)
Definition decision_of
    (r : Result (ExecutionEngine.t * (Qc * Qc) * RiskGuardianAgent.Decision))
    : option RiskGuardianAgent.Decision :=
  match r with
  | Ok (_, _, d) => Some d
  | Raise _ => None
  end.

(** * Further vocabulary *)

(** *** The price feed *)


(** *** The ledger *)

(** The condition under which [remove_position] refuses a sale: no entry
    for the symbol, or less held than asked. *)
Definition cannot_sell (s : PortfolioEngine.t) (symbol : string) (amount : Qc) : Prop :=
  match PortfolioEngine.positions s !! symbol with
  | None => True
  | Some pos => PortfolioEngine.amount pos < amount
  end.

(** *** Parameters and memory *)

(** The bound that [update_strategy_parameters] checks. *)
Definition strategy_wf (s : StrategyEngine.t) : Prop :=
  (0 < StrategyEngine.short_window s < StrategyEngine.long_window s)%Z.

(** The counters of a memory agree with one another: wins and losses are
    counted among the trades, and the streak is no longer than the wins
    (or the losses) recorded. *)
Definition memory_consistent (m : BaseAgent.Memory) : Prop :=
  (0 ≤ BaseAgent.wins m ∧ 0 ≤ BaseAgent.losses m
   ∧ BaseAgent.wins m + BaseAgent.losses m ≤ BaseAgent.total_trades m
   ∧ - BaseAgent.losses m ≤ BaseAgent.current_streak m ≤ BaseAgent.wins m)%Z.

(** An agent after a sequence of settled trades, oldest first. *)
Definition after_outcomes {A} `{BaseAgent.Agent A} (a : A) (pnls : list Qc) : A :=
  foldl BaseAgent.update_memory a pnls.

(** The range of the guardian's cooldown counter. *)
Definition cooldown_in_range (g : RiskGuardianAgent.t) : Prop :=
  (0 ≤ RiskGuardianAgent.cooldown_cycles_remaining g ≤ 5)%Z.



(** *** The cycle *)

(** Three closes that end in a rise: with windows 1 and 2 the averages
    are 10 against 10, then 12 against 11. *)
Definition rising_closes : list Qc := [qc 10 1; qc 10 1; qc 12 1].

(** A coordinator on a fresh ledger of 10000 with windows 1 and 2. *)
Definition engine_quick : ExecutionEngine.t :=
  ExecutionEngine.init (PortfolioEngine.init (qc 10000 1)) RiskEngine.default
    quick_strategy.

(** * Properties *)

(** ** Parameter updates (risk_engine.py, strategy_engine.py) *)

Section ParameterUpdates.
Import RiskEngine StrategyEngine.

Lemma in_unit_test (x : Qc) :
  bool_decide (0 < x) && bool_decide (x ≤ 1) = true ↔ in_unit x.
Proof.
  unfold in_unit. rewrite andb_true_iff, !bool_decide_eq_true. tauto.
Qed.

Lemma update_risk_position (r : RiskEngine.t) (mp me : Qc) :
  max_position_pct (update_risk_parameters r mp me)
  = if bool_decide (0 < mp) && bool_decide (mp ≤ 1)
    then mp else max_position_pct r.
Proof.
  unfold update_risk_parameters.
  destruct (bool_decide (0 < mp) && bool_decide (mp ≤ 1));
    destruct (bool_decide (0 < me) && bool_decide (me ≤ 1)); reflexivity.
Qed.

Lemma update_risk_exposure (r : RiskEngine.t) (mp me : Qc) :
  max_exposure_pct (update_risk_parameters r mp me)
  = if bool_decide (0 < me) && bool_decide (me ≤ 1)
    then me else max_exposure_pct r.
Proof.
  unfold update_risk_parameters.
  destruct (bool_decide (0 < mp) && bool_decide (mp ≤ 1));
    destruct (bool_decide (0 < me) && bool_decide (me ≤ 1)); reflexivity.
Qed.

Lemma risk_wf_default : risk_wf RiskEngine.default.
Proof. repeat split; by vm_compute. Qed.

Lemma risk_wf_update (r : RiskEngine.t) (mp me : Qc) :
  risk_wf r → risk_wf (update_risk_parameters r mp me).
Proof.
  intros [Hp He]. split.
  - rewrite update_risk_position.
    destruct (bool_decide (0 < mp) && bool_decide (mp ≤ 1)) eqn:E; [|done].
    by apply in_unit_test.
  - rewrite update_risk_exposure.
    destruct (bool_decide (0 < me) && bool_decide (me ≤ 1)) eqn:E; [|done].
    by apply in_unit_test.
Qed.

(** C7.  Both update methods are total functions on the engine (they
    return the engine, never an exception).  [update_strategy_parameters]
    installs the two windows together when [0 < short < long] and returns
    the engine unchanged otherwise; [update_risk_parameters] treats each
    percentage on its own: a value in (0, 1] is installed, a value outside
    leaves that percentage as it was. *)
Theorem out_of_bound_updates_are_ignored
    (s : StrategyEngine.t) (r : RiskEngine.t) (sw lw : Z) (mp me : Qc) :
  ((0 < sw < lw)%Z →
     update_strategy_parameters s sw lw
     = {| short_window := sw; long_window := lw |})
  ∧ (¬ (0 < sw < lw)%Z → update_strategy_parameters s sw lw = s)
  ∧ (in_unit mp → max_position_pct (update_risk_parameters r mp me) = mp)
  ∧ (¬ in_unit mp →
       max_position_pct (update_risk_parameters r mp me) = max_position_pct r)
  ∧ (in_unit me → max_exposure_pct (update_risk_parameters r mp me) = me)
  ∧ (¬ in_unit me →
       max_exposure_pct (update_risk_parameters r mp me) = max_exposure_pct r).
Proof.
  repeat split.
  - intros [H1 H2]. unfold update_strategy_parameters.
    by rewrite !bool_decide_eq_true_2.
  - intros H. unfold update_strategy_parameters.
    destruct (bool_decide (0 < sw)%Z && bool_decide (sw < lw)%Z) eqn:E; [|done].
    apply andb_true_iff in E as [E1%bool_decide_eq_true E2%bool_decide_eq_true].
    by destruct H.
  - intros H%in_unit_test. by rewrite update_risk_position, H.
  - intros H. rewrite update_risk_position.
    destruct (bool_decide (0 < mp) && bool_decide (mp ≤ 1)) eqn:E; [|done].
    by apply in_unit_test in E.
  - intros H%in_unit_test. by rewrite update_risk_exposure, H.
  - intros H. rewrite update_risk_exposure.
    destruct (bool_decide (0 < me) && bool_decide (me ≤ 1)) eqn:E; [|done].
    by apply in_unit_test in E.
Qed.

(** An update with crossed windows and one bad percentage: the strategy
    and the bad percentage stay, the good percentage is taken. *)
Lemma out_of_bound_updates_are_ignored_witness :
  update_strategy_parameters StrategyEngine.default 30 10 = StrategyEngine.default
  ∧ max_position_pct (update_risk_parameters RiskEngine.default (qc 3 2) (qc 1 2))
    = max_position_pct RiskEngine.default
  ∧ max_exposure_pct (update_risk_parameters RiskEngine.default (qc 3 2) (qc 1 2))
    = qc 1 2.
Proof.
  pose proof (out_of_bound_updates_are_ignored
                StrategyEngine.default RiskEngine.default 30 10 (qc 3 2) (qc 1 2))
    as (_ & Hs & _ & Hp & He & _).
  split; [apply Hs; lia|].
  split; [apply Hp; intros [_ H]; by vm_compute in H|].
  apply He. split; by vm_compute.
Defined.

End ParameterUpdates.

(** ** Agent memory (agent_engine.py, BaseAgent) *)

Section Memory.
Import BaseAgent.

Lemma Qc_sign_cases (x : Qc) : 0 < x ∨ x < 0 ∨ x = 0.
Proof.
  destruct (Qclt_le_dec 0 x) as [|H1]; [by left|].
  destruct (Qclt_le_dec x 0) as [|H2]; [by right; left|].
  right; right. by apply Qcle_antisym.
Qed.

Lemma Qc_pos_not_neg (x : Qc) : 0 < x → ¬ x < 0.
Proof. intros H1 H2. exact (Qclt_not_le _ _ H1 (Qclt_le_weak _ _ H2)). Qed.

Lemma record_outcome_win (m : Memory) (pnl : Qc) :
  0 < pnl →
  current_streak (record_outcome m pnl)
  = if bool_decide (0 < current_streak m)%Z then (current_streak m + 1)%Z else 1%Z.
Proof. intros H. unfold record_outcome. by rewrite bool_decide_eq_true_2. Qed.

Lemma record_outcome_loss (m : Memory) (pnl : Qc) :
  pnl < 0 →
  current_streak (record_outcome m pnl)
  = if bool_decide (current_streak m < 0)%Z then (current_streak m - 1)%Z else (-1)%Z.
Proof.
  intros H. unfold record_outcome.
  rewrite bool_decide_eq_false_2 by (intros H'; by apply (Qc_pos_not_neg pnl)).
  by rewrite bool_decide_eq_true_2.
Qed.

Lemma record_outcome_flat (m : Memory) :
  current_streak (record_outcome m 0) = current_streak m.
Proof. reflexivity. Qed.

Global Instance scout_lawful : LawfulAgent ScoutAgent.t.
Proof.
  split; [done|]. intros a. cbn. unfold ScoutAgent._adapt.
  by case_bool_decide.
Qed.

Global Instance analyst_lawful : LawfulAgent AnalystAgent.t.
Proof.
  split; [done|]. intros a. cbn. unfold AnalystAgent._adapt.
  by repeat case_bool_decide.
Qed.

Global Instance guardian_lawful : LawfulAgent RiskGuardianAgent.t.
Proof.
  split; [done|]. intros a. cbn. unfold RiskGuardianAgent._adapt.
  by repeat case_bool_decide.
Qed.

Lemma streak_of_update_memory {A} `{LawfulAgent A} (a : A) (pnl : Qc) :
  streak_of (update_memory a pnl)
  = current_streak (record_outcome (get_memory a) pnl).
Proof.
  unfold streak_of, update_memory.
  by rewrite adapt_keeps_streak, get_set_memory.
Qed.

(** C3, as the code has it.  After [update_memory(realized_pnl)] with a
    non-zero P&L the streak is not zero; an outcome against the sign of
    the prior streak (or after a zero streak) sets it to the unit of the
    new direction, +1 for a win and -1 for a loss; an outcome along the
    prior streak moves it one further from zero; and a P&L of exactly zero
    is neither a win nor a loss and leaves the streak as it was. *)
Theorem streak_after_update_memory
    {A} `{LawfulAgent A} (a : A) (realized_pnl : Qc) :
  let before := streak_of a in
  let after := streak_of (update_memory a realized_pnl) in
  (realized_pnl ≠ 0 → after ≠ 0%Z)
  ∧ (0 < realized_pnl → (before ≤ 0)%Z → after = 1%Z)
  ∧ (realized_pnl < 0 → (0 ≤ before)%Z → after = (-1)%Z)
  ∧ (0 < realized_pnl → (0 < before)%Z → after = (before + 1)%Z)
  ∧ (realized_pnl < 0 → (before < 0)%Z → after = (before - 1)%Z)
  ∧ (realized_pnl = 0 → after = before).
Proof.
  cbn zeta. rewrite streak_of_update_memory. fold (streak_of a).
  repeat split.
  - intros Hne.
    destruct (Qc_sign_cases realized_pnl) as [Hp|[Hn|Hz]]; [| |done].
    + rewrite (record_outcome_win _ _ Hp). case_bool_decide; lia.
    + rewrite (record_outcome_loss _ _ Hn). case_bool_decide; lia.
  - intros Hp Hb. rewrite (record_outcome_win _ _ Hp).
    fold (streak_of a). case_bool_decide; lia.
  - intros Hn Hb. rewrite (record_outcome_loss _ _ Hn).
    fold (streak_of a). case_bool_decide; lia.
  - intros Hp Hb. rewrite (record_outcome_win _ _ Hp).
    fold (streak_of a). case_bool_decide; lia.
  - intros Hn Hb. rewrite (record_outcome_loss _ _ Hn).
    fold (streak_of a). case_bool_decide; lia.
  - intros ->. apply record_outcome_flat.
Qed.

(** A first winning trade of the scout starts a streak of +1. *)
Lemma streak_after_update_memory_witness :
  streak_of (update_memory ScoutAgent.init 1) = 1%Z.
Proof.
  pose proof (streak_after_update_memory ScoutAgent.init 1) as (_ & Hwin & _).
  apply Hwin; [by vm_compute | by vm_compute].
Defined.

(** C3, counterexample to "never zero after the call": a trade closed at
    its entry price has a realized P&L of zero; it is counted as a trade
    and the fresh agent's streak is still zero. *)
Lemma zero_pnl_leaves_zero_streak :
  total_trades (get_memory (update_memory RiskGuardianAgent.init 0)) = 1%Z
  ∧ streak_of (update_memory RiskGuardianAgent.init 0) = 0%Z.
Proof. split; reflexivity. Qed.

End Memory.

(** ** The risk guardian (agent_engine.py, RiskGuardianAgent) *)

Section Guardian.
Import BaseAgent RiskEngine RiskGuardianAgent.

Lemma evaluate_cooling (g : RiskGuardianAgent.t) (risk : RiskEngine.t)
    (p : AnalystAgent.Decision) (pv tov price : Qc) :
  (0 < cooldown_cycles_remaining g)%Z →
  evaluate g risk p pv tov price
  = let g1 := set_cooldown g (cooldown_cycles_remaining g - 1)%Z in
    if bool_decide (0 < cooldown_cycles_remaining g - 1)%Z
    then Ok (decide_with g1 (CooldownActive (cooldown_cycles_remaining g - 1)%Z) blocked)
    else Ok (decide_with (_adapt g1) CooldownFinished blocked).
Proof. intros H. unfold evaluate. by rewrite bool_decide_eq_true_2. Qed.

(** The keyword [portfolio_value] names no parameter of
    [calculate_position_size]. *)
Lemma calculate_position_size_kw_portfolio_value (risk : RiskEngine.t) (pv price : Qc) :
  calculate_position_size_kw risk
    [("portfolio_value", pv); ("current_price", price)] = Raise TypeError.
Proof. reflexivity. Qed.

(** A BUY proposal outside a cooldown stops at the sizing call. *)
Lemma evaluate_buy (g : RiskGuardianAgent.t) (risk : RiskEngine.t)
    (p : AnalystAgent.Decision) (pv tov price : Qc) :
  AnalystAgent.signal p = BUY →
  (cooldown_cycles_remaining g ≤ 0)%Z →
  evaluate g risk p pv tov price = Raise TypeError.
Proof.
  intros Hbuy Hcool. unfold evaluate.
  rewrite (bool_decide_eq_false_2 (0 < cooldown_cycles_remaining g)%Z) by lia.
  rewrite Hbuy.
  rewrite (bool_decide_eq_false_2 (BUY = HOLD)) by done.
  rewrite (bool_decide_eq_false_2 (BUY = SELL)) by done.
  by rewrite calculate_position_size_kw_portfolio_value.
Qed.

(** Every other call returns a decision. *)
Lemma evaluate_returns (g : RiskGuardianAgent.t) (risk : RiskEngine.t)
    (p : AnalystAgent.Decision) (pv tov price : Qc) :
  (0 < cooldown_cycles_remaining g)%Z ∨ AnalystAgent.signal p ≠ BUY →
  ∃ g' d, evaluate g risk p pv tov price = Ok (g', d).
Proof.
  intros H. unfold evaluate.
  case_bool_decide as Hc; [case_bool_decide; by eexists _, _|].
  case_bool_decide; [by eexists _, _|].
  case_bool_decide; [by eexists _, _|].
  destruct H as [H|H]; [done|]. by destruct (AnalystAgent.signal p).
Qed.

(** C5, what the code does.  A BUY proposal reaching a guardian that is
    not cooling down is never sized.  [evaluate] calls
    [calculate_position_size] with the keyword [portfolio_value]; the
    parameter of the method is [current_portfolio_value], so the call
    raises TypeError before an amount is computed or a limit is checked,
    and [evaluate] returns no decision, neither the approval nor a
    rejection.  Called under its own parameter names the method computes
    the size that the claim starts from. *)
Theorem buy_proposal_raises_type_error
    (g : RiskGuardianAgent.t) (risk : RiskEngine.t)
    (p : AnalystAgent.Decision) (pv tov price : Qc) :
  AnalystAgent.signal p = BUY →
  (cooldown_cycles_remaining g ≤ 0)%Z →
  evaluate g risk p pv tov price = Raise TypeError
  ∧ (∀ g' d, evaluate g risk p pv tov price ≠ Ok (g', d))
  ∧ bind_keywords calculate_position_size_params
      [("portfolio_value", pv); ("current_price", price)] = Raise TypeError
  ∧ calculate_position_size_kw risk
      [("current_portfolio_value", pv); ("current_price", price)]
    = calculate_position_size risk pv price.
Proof.
  intros Hbuy Hcool. rewrite (evaluate_buy _ _ _ _ _ _ Hbuy Hcool).
  split; [done|]. split; [done|]. split; reflexivity.
Qed.

(** The default limits, a fresh guardian, a portfolio worth 10000 with
    nothing open and a price of 100: the BUY proposal raises. *)
Lemma buy_proposal_raises_type_error_witness :
  evaluate RiskGuardianAgent.init RiskEngine.default (propose BUY)
    (qc 10000 1) 0 (qc 100 1) = Raise TypeError.
Proof.
  apply (buy_proposal_raises_type_error RiskGuardianAgent.init RiskEngine.default
           (propose BUY) (qc 10000 1) 0 (qc 100 1)).
  - reflexivity.
  - by vm_compute.
Defined.

Lemma adapt_on_win_streak (g : RiskGuardianAgent.t) :
  (3 ≤ current_streak (memory g))%Z →
  _adapt g = adapted g ["Aggressive Sizing (+25%)"]
               (cooldown_cycles_remaining g) (qc 5 4).
Proof.
  intros H. unfold _adapt.
  rewrite !bool_decide_eq_false_2 by lia. by rewrite bool_decide_eq_true_2.
Qed.

(** C9, what the code does.  The adaptation on a win streak of three or
    more sets [size_modifier] to 1.25.  A guardian that is not cooling
    down and whose [size_modifier] is above 1 answers a BUY proposal as
    it answers any BUY proposal: the sizing call raises TypeError.
    [validate_position_size] is not reached, and the proposal is neither
    rejected on the position-size limit nor approved. *)
Theorem aggressive_sizing_raises_type_error
    (risk : RiskEngine.t) (p : AnalystAgent.Decision) (pv tov price : Qc) :
  (∀ g0 : RiskGuardianAgent.t,
     (3 ≤ current_streak (memory g0))%Z →
     size_modifier (_adapt g0) = qc 5 4 ∧ 1 < size_modifier (_adapt g0))
  ∧ (∀ g : RiskGuardianAgent.t,
       AnalystAgent.signal p = BUY →
       (cooldown_cycles_remaining g ≤ 0)%Z →
       1 < size_modifier g →
       evaluate g risk p pv tov price = Raise TypeError
       ∧ ∀ g' d, evaluate g risk p pv tov price ≠ Ok (g', d)).
Proof.
  split.
  - intros g0 H. rewrite (adapt_on_win_streak _ H). cbn. split; [done|by vm_compute].
  - intros g Hbuy Hcool _. by rewrite (evaluate_buy _ _ _ _ _ _ Hbuy Hcool).
Qed.

(** A guardian on a win streak of three, adapted: modifier 1.25; its BUY
    on a portfolio of 10000 at price 100 raises. *)
Lemma aggressive_sizing_raises_type_error_witness :
  size_modifier (_adapt (BaseAgent.set_memory RiskGuardianAgent.init
                   (mkMemory 3 3 0 3 []))) = qc 5 4
  ∧ evaluate (_adapt (BaseAgent.set_memory RiskGuardianAgent.init
                        (mkMemory 3 3 0 3 [])))
      RiskEngine.default (propose BUY) (qc 10000 1) 0 (qc 100 1)
    = Raise TypeError.
Proof.
  pose proof (aggressive_sizing_raises_type_error RiskEngine.default (propose BUY)
                (qc 10000 1) 0 (qc 100 1)) as [Hadapt Hraise].
  split.
  - apply Hadapt. by vm_compute.
  - apply Hraise; by vm_compute.
Defined.


(** *** The cooldown *)

Lemma adapt_on_deep_loss_streak (g : RiskGuardianAgent.t) :
  (current_streak (memory g) ≤ -3)%Z →
  _adapt g = adapted g ["Active Cooldown"; "Reduced Sizing (-50%)"]
               (if bool_decide (cooldown_cycles_remaining g = 0%Z)
                then 5%Z else cooldown_cycles_remaining g)
               (qc 1 2).
Proof. intros H. unfold _adapt. by rewrite bool_decide_eq_true_2. Qed.

(** One tick of a cooldown that has more than one cycle left. *)
Lemma evaluate_tick (g : RiskGuardianAgent.t) (risk : RiskEngine.t) (c : Call) :
  (1 < cooldown_cycles_remaining g)%Z →
  ∃ g', evaluate g risk (call_proposal c) (call_portfolio_value c)
          (call_open_value c) (call_price c) = Ok (g', blocked)
        ∧ memory g' = memory g
        ∧ cooldown_cycles_remaining g' = (cooldown_cycles_remaining g - 1)%Z.
Proof.
  intros H. rewrite evaluate_cooling by lia. cbn zeta.
  rewrite bool_decide_eq_true_2 by lia. by eexists.
Qed.

(** The last tick: the counter reaches zero, [_adapt] runs, and on a
    streak of -3 or worse it finds the counter at zero and sets it to 5. *)
Lemma evaluate_last_tick (g : RiskGuardianAgent.t) (risk : RiskEngine.t) (c : Call) :
  cooldown_cycles_remaining g = 1%Z →
  (current_streak (memory g) ≤ -3)%Z →
  ∃ g', evaluate g risk (call_proposal c) (call_portfolio_value c)
          (call_open_value c) (call_price c) = Ok (g', blocked)
        ∧ status g' = CooldownFinished
        ∧ current_streak (memory g') = current_streak (memory g)
        ∧ cooldown_cycles_remaining g' = 5%Z.
Proof.
  intros H Hs. rewrite evaluate_cooling by lia. cbn zeta.
  rewrite bool_decide_eq_false_2 by lia.
  rewrite adapt_on_deep_loss_streak by done.
  eexists. split; [done|]. cbn. rewrite H. done.
Qed.

(** Any call on a guardian that is cooling down on a streak of -3 or
    worse is blocked and leaves it cooling down on the same streak. *)
Lemma evaluate_stays_blocked (g : RiskGuardianAgent.t) (risk : RiskEngine.t) (c : Call) :
  (current_streak (memory g) ≤ -3)%Z →
  (1 ≤ cooldown_cycles_remaining g)%Z →
  ∃ g', evaluate g risk (call_proposal c) (call_portfolio_value c)
          (call_open_value c) (call_price c) = Ok (g', blocked)
        ∧ (current_streak (memory g') ≤ -3)%Z
        ∧ (1 ≤ cooldown_cycles_remaining g')%Z.
Proof.
  intros Hs Hc.
  destruct (decide (cooldown_cycles_remaining g = 1%Z)) as [H1|H1].
  - destruct (evaluate_last_tick g risk c H1 Hs) as (g' & -> & _ & Hs' & Hc').
    exists g'. split; [done|]. lia.
  - destruct (evaluate_tick g risk c) as (g' & -> & Hm & Hc'); [lia|].
    exists g'. rewrite Hm. split; [done|]. lia.
Qed.

(** While the streak stays at -3 or below the cooldown never ends: every
    call of any sequence is blocked. *)
Lemma cooldown_never_ends (risk : RiskEngine.t) (calls : list Call) :
  ∀ g : RiskGuardianAgent.t,
    (current_streak (memory g) ≤ -3)%Z →
    (1 ≤ cooldown_cycles_remaining g)%Z →
    ∃ g', evaluate_calls g risk calls
          = Ok (g', replicate (length calls) blocked).
Proof.
  induction calls as [|c calls IH]; intros g Hs Hc.
  - by exists g.
  - destruct (evaluate_stays_blocked g risk c Hs Hc) as (g1 & Heval & Hs1 & Hc1).
    destruct (IH g1 Hs1 Hc1) as (g2 & Hrest).
    exists g2. cbn [evaluate_calls]. rewrite Heval. cbn. rewrite Hrest. done.
Qed.

(** C1, what the code does.  Take a guardian on a loss streak of three
    or more whose adaptation has just started a cooldown of 5, and call
    [evaluate] with any arguments, the memory untouched in between.  The
    first five calls return HOLD with amount 0, as claimed; but the fifth
    call, on reaching zero, re-runs the adaptation, which starts a new
    cooldown of 5 (the status reads "Cooldown Finished" while the counter
    is back at 5), so that the sixth call is blocked again instead of
    evaluating its proposal. *)
Theorem sixth_call_is_still_blocked
    (g0 : RiskGuardianAgent.t) (risk : RiskEngine.t)
    (c1 c2 c3 c4 c5 c6 : Call) :
  (current_streak (memory g0) ≤ -3)%Z →
  cooldown_cycles_remaining g0 = 0%Z →
  cooldown_cycles_remaining (_adapt g0) = 5%Z
  ∧ ∃ g5 g6,
      evaluate_calls (_adapt g0) risk [c1; c2; c3; c4; c5]
      = Ok (g5, [blocked; blocked; blocked; blocked; blocked])
      ∧ status g5 = CooldownFinished
      ∧ cooldown_cycles_remaining g5 = 5%Z
      ∧ evaluate g5 risk (call_proposal c6) (call_portfolio_value c6)
          (call_open_value c6) (call_price c6)
        = Ok (g6, blocked).
Proof.
  intros Hs Hc.
  assert (cooldown_cycles_remaining (_adapt g0) = 5%Z) as H5.
  { rewrite adapt_on_deep_loss_streak by done. cbn. by rewrite Hc. }
  assert (current_streak (memory (_adapt g0)) ≤ -3)%Z as Hs0.
  { rewrite adapt_on_deep_loss_streak by done. done. }
  split; [done|].
  destruct (evaluate_tick (_adapt g0) risk c1) as (g1 & E1 & M1 & C1); [lia|].
  destruct (evaluate_tick g1 risk c2) as (g2 & E2 & M2 & C2); [lia|].
  destruct (evaluate_tick g2 risk c3) as (g3 & E3 & M3 & C3); [lia|].
  destruct (evaluate_tick g3 risk c4) as (g4 & E4 & M4 & C4); [lia|].
  destruct (evaluate_last_tick g4 risk c5) as (g5 & E5 & St5 & M5 & C5);
    [lia | congruence |].
  destruct (evaluate_tick g5 risk c6) as (g6 & E6 & _ & _); [lia|].
  exists g5, g6. cbn [evaluate_calls].
  rewrite E1; cbn. rewrite E2; cbn. rewrite E3; cbn. rewrite E4; cbn.
  rewrite E5; cbn. done.
Qed.

(** Three losing trades reported to a fresh guardian, then six SELL
    proposals: the sixth is blocked, not approved. *)
Lemma sixth_call_is_still_blocked_witness :
  ∃ g5 g6,
    evaluate_calls (guardian_after_losses 3) RiskEngine.default
      (replicate 5 (mkCall (propose SELL) (qc 10000 1) 0 (qc 100 1)))
    = Ok (g5, replicate 5 blocked)
    ∧ evaluate g5 RiskEngine.default (propose SELL) (qc 10000 1) 0 (qc 100 1)
      = Ok (g6, blocked).
Proof.
  pose (c := mkCall (propose SELL) (qc 10000 1) 0 (qc 100 1)).
  destruct (sixth_call_is_still_blocked
              (BaseAgent.set_memory (guardian_after_losses 2)
                 (record_outcome (memory (guardian_after_losses 2)) (- 1)))
              RiskEngine.default c c c c c c)
    as (_ & g5 & g6 & Hfive & _ & _ & Hsixth).
  - by vm_compute.
  - reflexivity.
  - exists g5, g6. split; [exact Hfive | exact Hsixth].
Defined.

End Guardian.

(** ** The crossover strategy (strategy_engine.py) *)

Lemma reverse_zip {A B} (l : list A) (k : list B) :
  length l = length k → reverse (zip l k) = zip (reverse l) (reverse k).
Proof.
  revert k. induction l as [|a l IH]; intros [|b k] Hlen; try done.
  cbn in Hlen. cbn [zip zip_with]. rewrite !reverse_cons.
  rewrite zip_with_app by (rewrite !length_reverse; lia).
  rewrite <-IH by lia. done.
Qed.

Lemma length_rolling_from (w : nat) (xs : list Qc) :
  ∀ recent, length (rolling_from w recent xs) = length xs.
Proof. induction xs as [|x xs IH]; intros recent; cbn; [done|]. by rewrite IH. Qed.

(** The rolling mean of the examples is one. *)
Lemma exact_rolling_spec : rolling_spec exact_rolling_mean.
Proof.
  split.
  - intros w xs Hw. unfold exact_rolling_mean.
    rewrite bool_decide_eq_false_2 by lia. by eexists.
  - intros w xs col. unfold exact_rolling_mean.
    case_bool_decide; [done|]. intros [= <-]. apply length_rolling_from.
Qed.

Section Strategy.
Import StrategyEngine.

Variable rolling_mean : Z → list Qc → Result (list (option Qc)).
Hypothesis pandas : rolling_spec rolling_mean.

Lemma generate_signal_short (s : StrategyEngine.t) (xs : list Qc) :
  (Z.of_nat (length xs) < long_window s)%Z →
  generate_signal rolling_mean s xs = Ok HOLD.
Proof.
  intros H. unfold generate_signal.
  rewrite (bool_decide_eq_true_2 (_ < _)%Z) by done. by rewrite orb_true_r.
Qed.

(** What [generate_signal] returns on a series of [long_window] samples
    or more, in terms of the four averages it reads. *)
Lemma generate_signal_crossover (s : StrategyEngine.t) (xs : list Qc) :
  (0 ≤ short_window s)%Z → (0 < long_window s)%Z →
  (long_window s ≤ Z.of_nat (length xs))%Z →
  generate_signal rolling_mean s xs
  = Ok (crossover_of
          (sma_back rolling_mean (short_window s) xs 1,
           sma_back rolling_mean (long_window s) xs 1)
          (sma_back rolling_mean (short_window s) xs 0,
           sma_back rolling_mean (long_window s) xs 0)).
Proof.
  intros Hs Hl Hlen. unfold generate_signal, sma_back.
  rewrite (bool_decide_eq_false_2 (xs = [])) by (intros ->; cbn in Hlen; lia).
  rewrite (bool_decide_eq_false_2 (_ < _)%Z) by lia. cbn [orb].
  destruct (rolling_returns _ pandas (short_window s) xs Hs) as [cs Hcs].
  destruct (rolling_returns _ pandas (long_window s) xs) as [cl Hcl]; [lia|].
  pose proof (rolling_length _ pandas _ _ _ Hcs) as Lcs.
  pose proof (rolling_length _ pandas _ _ _ Hcl) as Lcl.
  rewrite Hcs, Hcl. cbn [mbind Result_bind].
  rewrite reverse_zip by congruence.
  assert (length (reverse cs) = length (reverse cl)) as Hrev
    by (rewrite !length_reverse; congruence).
  destruct (reverse cs) as [|s0 [|s1 rs]], (reverse cl) as [|l0 [|l1 rl]];
    try discriminate Hrev; cbn.
  - reflexivity.
  - unfold crossover_of. cbn [fst snd]. by rewrite orb_true_r.
  - unfold crossover_of. cbn [fst snd].
    destruct (_ || _); [done|]. destruct (_ && _); [done|]. by destruct (_ && _).
Qed.

(** With windows that are not negative [generate_signal] returns. *)
Lemma generate_signal_total (s : StrategyEngine.t) (xs : list Qc) :
  (0 ≤ short_window s)%Z → (0 ≤ long_window s)%Z →
  ∃ sig, generate_signal rolling_mean s xs = Ok sig.
Proof.
  intros Hs Hl. unfold generate_signal.
  destruct (_ || _); [by eexists|].
  destruct (rolling_returns _ pandas (short_window s) xs Hs) as [cs ->].
  destruct (rolling_returns _ pandas (long_window s) xs Hl) as [cl ->].
  cbn [mbind Result_bind].
  destruct (reverse (zip cs cl)) as [|latest [|previous rest]]; [by eexists..|].
  destruct (_ || _); [by eexists|].
  destruct (_ && _); [by eexists|]. destruct (_ && _); by eexists.
Qed.

Lemma crossover_of_buy (sp lp sl ll : option Qc) :
  crossover_of (sp, lp) (sl, ll) = BUY
  ↔ ∃ a b c d : Qc, sp = Some a ∧ lp = Some b ∧ sl = Some c ∧ ll = Some d
                    ∧ a ≤ b ∧ d < c.
Proof.
  unfold crossover_of, nan_le, nan_lt. cbn [fst snd]. split.
  - destruct ll as [d|], lp as [b|]; cbn; try done.
    destruct sp as [a|], sl as [c|]; cbn;
      repeat case_bool_decide; cbn; try done.
    all: intros _; by exists a, b, c, d.
  - intros (a & b & c & d & -> & -> & -> & -> & Hab & Hdc).
    rewrite !(bool_decide_eq_false_2 (Some _ = None)) by done.
    by rewrite (bool_decide_eq_true_2 (a ≤ b)), (bool_decide_eq_true_2 (d < c)).
Qed.

Lemma crossover_of_sell (sp lp sl ll : option Qc) :
  crossover_of (sp, lp) (sl, ll) = SELL
  ↔ ∃ a b c d : Qc, sp = Some a ∧ lp = Some b ∧ sl = Some c ∧ ll = Some d
                    ∧ b ≤ a ∧ c < d.
Proof.
  unfold crossover_of, nan_le, nan_lt. cbn [fst snd]. split.
  - destruct ll as [d|], lp as [b|]; cbn; try done.
    destruct sp as [a|], sl as [c|]; cbn;
      repeat case_bool_decide; cbn; try done.
    all: intros _; by exists a, b, c, d.
  - intros (a & b & c & d & -> & -> & -> & -> & Hba & Hcd).
    rewrite !(bool_decide_eq_false_2 (Some _ = None)) by done.
    rewrite (bool_decide_eq_false_2 (d < c)).
    + rewrite andb_false_r.
      by rewrite (bool_decide_eq_true_2 (b ≤ a)), (bool_decide_eq_true_2 (c < d)).
    + intros Hdc. exact (Qclt_not_le _ _ Hdc (Qclt_le_weak _ _ Hcd)).
Qed.

Lemma crossover_of_undefined (sp lp sl ll : option Qc) :
  ll = None ∨ lp = None → crossover_of (sp, lp) (sl, ll) = HOLD.
Proof.
  unfold crossover_of. cbn [fst snd]. intros [-> | ->]; cbn; [done|].
  by rewrite orb_true_r.
Qed.

(** C6.  The moving averages are the entries of the two columns that
    pandas computes, read at the last and at the second-to-last sample.
    With positive windows, [generate_signal] returns HOLD on a series
    shorter than [long_window].  On any other series it returns a
    signal: HOLD when the long average is undefined at the last or at
    the second-to-last sample; BUY exactly on a bullish crossover (short
    at or below long at the second-to-last sample, strictly above at the
    last); SELL exactly on the mirror condition; HOLD in every other
    case. *)
Theorem generate_signal_detects_crossovers (s : StrategyEngine.t) (xs : list Qc) :
  (0 < short_window s)%Z → (0 < long_window s)%Z →
  ((Z.of_nat (length xs) < long_window s)%Z →
   generate_signal rolling_mean s xs = Ok HOLD)
  ∧ ((long_window s ≤ Z.of_nat (length xs))%Z →
     ∃ sig : Signal,
       generate_signal rolling_mean s xs = Ok sig
       ∧ (sma_back rolling_mean (long_window s) xs 0 = None
          ∨ sma_back rolling_mean (long_window s) xs 1 = None → sig = HOLD)
       ∧ (sig = BUY ↔ bullish_crossover rolling_mean s xs)
       ∧ (sig = SELL ↔ bearish_crossover rolling_mean s xs)
       ∧ (sig = HOLD ↔ ¬ bullish_crossover rolling_mean s xs
                       ∧ ¬ bearish_crossover rolling_mean s xs)).
Proof.
  intros Hs Hl. split; [apply generate_signal_short|]. intros Hlen.
  rewrite (generate_signal_crossover s xs) by lia.
  eexists. split; [reflexivity|].
  pose proof (crossover_of_buy
                (sma_back rolling_mean (short_window s) xs 1)
                (sma_back rolling_mean (long_window s) xs 1)
                (sma_back rolling_mean (short_window s) xs 0)
                (sma_back rolling_mean (long_window s) xs 0)) as Hbuy.
  pose proof (crossover_of_sell
                (sma_back rolling_mean (short_window s) xs 1)
                (sma_back rolling_mean (long_window s) xs 1)
                (sma_back rolling_mean (short_window s) xs 0)
                (sma_back rolling_mean (long_window s) xs 0)) as Hsell.
  fold (bullish_crossover rolling_mean s xs) in Hbuy.
  fold (bearish_crossover rolling_mean s xs) in Hsell.
  split; [|split; [exact Hbuy | split; [exact Hsell|]]].
  - apply crossover_of_undefined.
  - rewrite <-Hbuy, <-Hsell.
    destruct (crossover_of _ _); intuition congruence.
Qed.

End Strategy.

(** Windows 2 and 4 on a series that dips and recovers: the averages are
    8.5 against 9, then 11.5 against 10, and the signal is BUY. *)
Lemma generate_signal_detects_crossovers_witness :
  StrategyEngine.generate_signal exact_rolling_mean
    {| StrategyEngine.short_window := 2; StrategyEngine.long_window := 4 |}
    recovering_series
  = Ok BUY.
Proof.
  destruct (generate_signal_detects_crossovers exact_rolling_mean exact_rolling_spec
              {| StrategyEngine.short_window := 2; StrategyEngine.long_window := 4 |}
              recovering_series) as [_ Hlong]; [done | done |].
  destruct Hlong as (sig & Heval & _ & Hbuy & _); [by vm_compute|].
  rewrite Heval. f_equal. apply Hbuy.
  eexists _, _, _, _.
  split; [reflexivity|]. split; [reflexivity|].
  split; [reflexivity|]. split; [reflexivity|].
  split; by vm_compute.
Defined.

(** ** The ledger (portfolio_engine.py) *)

Section Ledger.
Import PortfolioEngine.

Lemma add_position_insufficient (s : PortfolioEngine.t) (sym : string) (a p : Qc) :
  cash_balance s < a * p → add_position s sym a p = Ok (s, false).
Proof. intros H. unfold add_position. by rewrite bool_decide_eq_true_2. Qed.

Lemma add_position_fresh (s : PortfolioEngine.t) (sym : string) (a p : Qc) :
  a * p ≤ cash_balance s →
  positions s !! sym = None →
  add_position s sym a p
  = Ok ({| initial_balance := initial_balance s;
           cash_balance := cash_balance s - a * p;
           positions := <[sym := {| amount := a; average_entry_price := p |}]>
                          (positions s) |}, true).
Proof.
  intros Hc Hnone. unfold add_position.
  rewrite bool_decide_eq_false_2 by by apply Qcle_not_lt.
  cbn. by rewrite Hnone.
Qed.

Lemma add_position_merge (s : PortfolioEngine.t) (sym : string) (a p : Qc)
    (pos : Position) :
  a * p ≤ cash_balance s →
  positions s !! sym = Some pos →
  amount pos + a ≠ 0 →
  add_position s sym a p
  = Ok ({| initial_balance := initial_balance s;
           cash_balance := cash_balance s - a * p;
           positions :=
             <[sym := {| amount := amount pos + a;
                         average_entry_price :=
                           (amount pos * average_entry_price pos + a * p)
                           / (amount pos + a) |}]> (positions s) |}, true).
Proof.
  intros Hc Hsome Hne. unfold add_position.
  rewrite bool_decide_eq_false_2 by by apply Qcle_not_lt.
  cbn. rewrite Hsome.
  by destruct (decide (amount pos + a = 0)).
Qed.

Lemma remove_position_ok (s : PortfolioEngine.t) (sym : string) (a p : Qc)
    (pos : Position) :
  positions s !! sym = Some pos →
  a ≤ amount pos →
  remove_position s sym a p
  = ({| initial_balance := initial_balance s;
        cash_balance := cash_balance s + a * p;
        positions :=
          if bool_decide (amount pos - a < dust)
          then delete sym (positions s)
          else <[sym := {| amount := amount pos - a;
                           average_entry_price := average_entry_price pos |}]>
                 (positions s) |}, true).
Proof.
  intros Hsome Hle. unfold remove_position. rewrite Hsome.
  rewrite bool_decide_eq_false_2 by by apply Qcle_not_lt.
  cbn. fold dust. by case_bool_decide.
Qed.

Lemma remove_position_true (s s' : PortfolioEngine.t) (sym : string) (a p : Qc) :
  remove_position s sym a p = (s', true) →
  ∃ pos, positions s !! sym = Some pos ∧ a ≤ amount pos.
Proof.
  unfold remove_position. destruct (positions s !! sym) as [pos|]; [|done].
  case_bool_decide as Hlt; [done|]. intros _.
  exists pos. split; [done|]. by apply Qcnot_lt_le.
Qed.

Lemma remove_position_false (s s' : PortfolioEngine.t) (sym : string) (a p : Qc) :
  remove_position s sym a p = (s', false) → s' = s.
Proof.
  unfold remove_position. destruct (positions s !! sym) as [pos|]; [|congruence].
  case_bool_decide; [congruence|]. case_bool_decide; done.
Qed.

Lemma Qc_sub_nonneg (x y : Qc) : y ≤ x → 0 ≤ x - y.
Proof. intros H. qc2q. lra. Qed.

Lemma Qc_add_nonneg (x y : Qc) : 0 ≤ x → 0 ≤ y → 0 ≤ x + y.
Proof. intros H1 H2. qc2q. lra. Qed.

(** No entry of a reachable ledger has a negative amount. *)
Lemma reachable_nonneg (s : PortfolioEngine.t) :
  reachable s →
  ∀ sym pos, positions s !! sym = Some pos → 0 ≤ amount pos.
Proof.
  induction 1 as [b | s sym a p s' ok Hr IH Ha Hp Hadd
                    | s sym a p s' ok Hr IH Ha Hp Hrem]; intros k pos Hk.
  - done.
  - unfold add_position in Hadd.
    case_bool_decide; [by simplify_eq; eauto|].
    cbn in Hadd. destruct (positions s !! sym) as [old|] eqn:Hold.
    + destruct (decide (amount old + a = 0)); [done|]. simplify_eq.
      cbn in Hk. destruct (decide (sym = k)) as [->|Hne].
      * rewrite lookup_insert_eq in Hk. simplify_eq. cbn.
        apply Qc_add_nonneg; eauto.
      * rewrite lookup_insert_ne in Hk by done. eauto.
    + simplify_eq. cbn in Hk. destruct (decide (sym = k)) as [->|Hne].
      * rewrite lookup_insert_eq in Hk. by simplify_eq.
      * rewrite lookup_insert_ne in Hk by done. eauto.
  - destruct ok; [|apply remove_position_false in Hrem; subst; eauto].
    destruct (remove_position_true _ _ _ _ _ Hrem) as (old & Hold & Hle).
    rewrite (remove_position_ok _ _ _ _ _ Hold Hle) in Hrem. simplify_eq.
    cbn in Hk. case_bool_decide.
    + destruct (decide (sym = k)) as [->|Hne].
      * by rewrite lookup_delete_eq in Hk.
      * rewrite lookup_delete_ne in Hk by done. eauto.
    + destruct (decide (sym = k)) as [->|Hne].
      * rewrite lookup_insert_eq in Hk. simplify_eq. cbn.
        by apply Qc_sub_nonneg.
      * rewrite lookup_insert_ne in Hk by done. eauto.
Qed.

(** A purchase that goes through leaves an entry for the symbol bought,
    whatever the amount. *)
Lemma add_position_true (s s' : PortfolioEngine.t) (sym : string) (a p : Qc) :
  add_position s sym a p = Ok (s', true) →
  (∀ other, is_Some (positions s !! other) → is_Some (positions s' !! other))
  ∧ ∃ pos', positions s' !! sym = Some pos'
            ∧ (positions s !! sym = None → amount pos' = a)
            ∧ (∀ pos, positions s !! sym = Some pos → amount pos' = amount pos + a).
Proof.
  unfold add_position. case_bool_decide; [done|]. cbn.
  destruct (positions s !! sym) as [old|] eqn:Hold.
  - destruct (decide (amount old + a = 0)); [done|]. intros [= <-]. cbn. split.
    + intros other Hother. destruct (decide (sym = other)) as [->|Hne].
      * rewrite lookup_insert_eq. by eexists.
      * by rewrite lookup_insert_ne.
    + eexists. rewrite lookup_insert_eq. split; [done|]. cbn.
      split; [done|]. by intros pos [= ->].
  - intros [= <-]. cbn. split.
    + intros other Hother. destruct (decide (sym = other)) as [->|Hne].
      * rewrite lookup_insert_eq. by eexists.
      * by rewrite lookup_insert_ne.
    + eexists. rewrite lookup_insert_eq. split; [done|]. cbn.
      split; [done|]. by intros pos.
Qed.

(** C2, as the code has it.  In every reachable ledger an entry holds a
    non-negative amount.  [add_position] applies no threshold: after a
    purchase that goes through the symbol has an entry, with the amount
    bought when it had none and with the amount it held plus the amount
    bought otherwise, and no other entry has gone.  The [1e-8] threshold
    is applied by [remove_position] alone, and to the symbol it sells:
    after a successful call the symbol has an entry exactly when the
    amount left is at least [1e-8], and that entry holds the amount
    left. *)
Theorem ledger_entries_after_trades (s : PortfolioEngine.t) :
  reachable s →
  (∀ sym pos, positions s !! sym = Some pos → 0 ≤ amount pos)
  ∧ (∀ sym a p s',
       0 ≤ a → 0 < p →
       add_position s sym a p = Ok (s', true) →
       reachable s'
       ∧ (∀ other, is_Some (positions s !! other) → is_Some (positions s' !! other))
       ∧ ∃ pos', positions s' !! sym = Some pos'
                 ∧ 0 ≤ amount pos'
                 ∧ (positions s !! sym = None → amount pos' = a)
                 ∧ (∀ pos, positions s !! sym = Some pos →
                      amount pos' = amount pos + a))
  ∧ (∀ sym a p s',
       0 ≤ a → 0 < p →
       remove_position s sym a p = (s', true) →
       reachable s'
       ∧ (is_Some (positions s' !! sym) ↔ dust ≤ held_amount s sym - a)
       ∧ (∀ pos', positions s' !! sym = Some pos' →
            amount pos' = held_amount s sym - a ∧ dust ≤ amount pos')).
Proof.
  intros Hr. split; [by apply reachable_nonneg|]. split.
  - intros sym a p s' Ha Hp Hadd.
    assert (reachable s') as Hr' by by eapply reachable_add.
    split; [done|].
    destruct (add_position_true _ _ _ _ _ Hadd) as (Hkeep & pos' & Hpos' & Hnew & Hold).
    split; [done|]. exists pos'. split; [done|].
    split; [by eapply reachable_nonneg|]. done.
  - intros sym a p s' Ha Hp Hrem.
    split; [by eapply reachable_remove|].
    destruct (remove_position_true _ _ _ _ _ Hrem) as (old & Hold & Hle).
    rewrite (remove_position_ok _ _ _ _ _ Hold Hle) in Hrem.
    unfold held_amount. rewrite Hold. simplify_eq. cbn.
    case_bool_decide as Hd.
    + rewrite lookup_delete_eq. split.
      * split; [by intros [? ?]|]. intros Hge. by apply Qcle_not_lt in Hge.
      * done.
    + rewrite lookup_insert_eq. apply Qcnot_lt_le in Hd. split.
      * split; [done|by eexists].
      * intros pos' [= <-]. by cbn.
Qed.

Lemma reachable_held_ledger : reachable held_ledger.
Proof.
  apply (reachable_add (init (qc 1100 1)) "BTCUSDT" 1 (qc 100 1) _ true).
  - apply reachable_init.
  - by vm_compute.
  - by vm_compute.
  - rewrite add_position_fresh; [done | by vm_compute | done].
Qed.

(** Selling a quarter of the unit held leaves an entry of three quarters. *)
Lemma ledger_entries_after_trades_witness :
  (∀ pos', positions (remove_position held_ledger "BTCUSDT" (qc 1 4) (qc 100 1)).1
           !! "BTCUSDT" = Some pos' → dust ≤ amount pos')
  ∧ 0 ≤ held_amount held_ledger "BTCUSDT".
Proof.
  destruct (ledger_entries_after_trades held_ledger reachable_held_ledger)
    as (Hnonneg & _ & Hremove).
  split.
  - intros pos' Hpos'.
    destruct (Hremove "BTCUSDT" (qc 1 4) (qc 100 1)
                (remove_position held_ledger "BTCUSDT" (qc 1 4) (qc 100 1)).1)
      as (_ & _ & Hentry).
    + by vm_compute.
    + by vm_compute.
    + rewrite (remove_position_ok _ _ _ _ {| amount := 1;
                 average_entry_price := qc 100 1 |}); [done | done | by vm_compute].
    + by apply Hentry.
  - apply (Hnonneg "BTCUSDT" {| amount := 1; average_entry_price := qc 100 1 |}).
    reflexivity.
Defined.

(** C2, counterexample.  One call of [add_position] on a fresh ledger,
    with a positive amount of [2^-30] (below [1e-8]) at price 100, returns
    [True] and leaves an entry whose amount is not above [1e-8]. *)
Lemma dust_entry_is_reachable :
  add_position (init (qc 10000 1)) "BTCUSDT" (qc 1 1073741824) (qc 100 1)
  = Ok (dust_ledger, true)
  ∧ reachable dust_ledger
  ∧ positions dust_ledger !! "BTCUSDT"
    = Some {| amount := qc 1 1073741824; average_entry_price := qc 100 1 |}
  ∧ 0 < qc 1 1073741824
  ∧ ¬ dust < qc 1 1073741824.
Proof.
  assert (add_position (init (qc 10000 1)) "BTCUSDT" (qc 1 1073741824) (qc 100 1)
          = Ok (dust_ledger, true)) as Hadd.
  { rewrite add_position_fresh; [done | by vm_compute | done]. }
  split; [exact Hadd|]. split; [|split; [done|split; by vm_compute]].
  eapply reachable_add; [apply reachable_init | | | exact Hadd]; by vm_compute.
Qed.


(** *** Buying and selling back *)

Lemma Qc_pos_add_ne_0 (b a : Qc) : 0 ≤ b → 0 < a → b + a ≠ 0.
Proof.
  intros Hb Ha Hz. assert (0 < b + a) as Hpos by (qc2q; lra).
  rewrite Hz in Hpos. by apply (Qclt_not_eq 0 0).
Qed.

Lemma Qc_sub_self_dust (x : Qc) : x - x < dust.
Proof. unfold dust. qc2q. lra. Qed.

(** C4, as the code has it.  On a ledger where the symbol, if held, is
    held in a non-negative amount, buying [a > 0] at [p > 0] within the
    cash balance and selling [a] back at [p] succeeds twice.  The cash
    balance is debited by [a * p] and then credited with [a * p]: it
    ends at [(cash - a * p) + a * p] as the two calls compute it, which
    is all that is said of it.  A symbol that had no entry has none
    afterwards, and the whole position map is as before.  A symbol that
    had one is left with what the two calls compute, [(held + a) - a]:
    no entry when that is below [1e-8], an entry with that amount
    otherwise.  Other symbols are untouched. *)
Theorem buy_then_sell_back (s : PortfolioEngine.t) (sym : string) (a p : Qc) :
  0 < a → 0 < p → a * p ≤ cash_balance s →
  0 ≤ held_amount s sym →
  ∃ s1 s2,
    add_position s sym a p = Ok (s1, true)
    ∧ remove_position s1 sym a p = (s2, true)
    ∧ cash_balance s1 = cash_balance s - a * p
    ∧ cash_balance s2 = cash_balance s1 + a * p
    ∧ (positions s !! sym = None → positions s2 = positions s)
    ∧ (∀ pos, positions s !! sym = Some pos →
         (amount pos + a - a < dust → positions s2 !! sym = None)
         ∧ (dust ≤ amount pos + a - a →
              ∃ pos2, positions s2 !! sym = Some pos2
                      ∧ amount pos2 = amount pos + a - a))
    ∧ (∀ other, other ≠ sym → positions s2 !! other = positions s !! other).
Proof.
  intros Ha Hp Hcash Hheld. unfold held_amount in *.
  destruct (positions s !! sym) as [pos|] eqn:Hpos.
  - assert (amount pos + a ≠ 0) as Hne by by apply Qc_pos_add_ne_0.
    rewrite (add_position_merge _ _ _ _ _ Hcash Hpos Hne).
    eexists _, _. split; [reflexivity|].
    erewrite remove_position_ok;
      [ | cbn; apply lookup_insert_eq | cbn; qc2q; lra ].
    split; [reflexivity|]. cbn.
    split; [done|]. split; [done|]. split; [done|].
    case_bool_decide as Hd.
    + split.
      * intros pos0 [= <-]. split; [intros _; apply lookup_delete_eq|].
        intros Hge. by apply Qcle_not_lt in Hge.
      * intros other Hother.
        by rewrite lookup_delete_ne, lookup_insert_ne.
    + split.
      * intros pos0 [= <-]. split; [done|].
        intros _. eexists. by rewrite lookup_insert_eq.
      * intros other Hother. by rewrite !lookup_insert_ne.
  - rewrite (add_position_fresh _ _ _ _ Hcash Hpos).
    eexists _, _. split; [reflexivity|].
    erewrite remove_position_ok;
      [ | cbn; apply lookup_insert_eq | cbn; apply Qcle_refl ].
    split; [reflexivity|]. cbn.
    split; [done|]. split; [done|].
    rewrite bool_decide_eq_true_2 by apply Qc_sub_self_dust.
    split; [intros _; by rewrite delete_insert_eq, delete_id|].
    split; [done|].
    intros other Hother. by rewrite lookup_delete_ne, lookup_insert_ne.
Qed.

(** Buying 20 units at 100 on a fresh ledger of 10000 and selling them
    back: the cash goes to 8000 and back to 8000 + 2000, and the position
    map is empty again. *)
Lemma buy_then_sell_back_witness :
  ∃ s1 s2,
    add_position (init (qc 10000 1)) "BTCUSDT" (qc 20 1) (qc 100 1) = Ok (s1, true)
    ∧ remove_position s1 "BTCUSDT" (qc 20 1) (qc 100 1) = (s2, true)
    ∧ cash_balance s1 = qc 10000 1 - qc 20 1 * qc 100 1
    ∧ cash_balance s2 = cash_balance s1 + qc 20 1 * qc 100 1
    ∧ positions s2 = ∅.
Proof.
  destruct (buy_then_sell_back (init (qc 10000 1)) "BTCUSDT" (qc 20 1) (qc 100 1))
    as (s1 & s2 & Hadd & Hrem & Hcash1 & Hcash2 & Hfresh & _).
  - by vm_compute.
  - by vm_compute.
  - by vm_compute.
  - by vm_compute.
  - exists s1, s2. split; [exact Hadd|]. split; [exact Hrem|].
    split; [exact Hcash1|]. split; [exact Hcash2|]. by apply Hfresh.
Defined.

(** C4, counterexample to "leaves no position entry": the ledger already
    holds one unit; one more unit is bought at 100 and sold back at 100.
    Both calls return [True], and the symbol still has its entry, with the
    unit held before. *)
Lemma sell_back_keeps_prior_holding :
  reachable held_ledger
  ∧ 1 * qc 100 1 ≤ cash_balance held_ledger
  ∧ ∃ s1 s2 pos2,
      add_position held_ledger "BTCUSDT" 1 (qc 100 1) = Ok (s1, true)
      ∧ remove_position s1 "BTCUSDT" 1 (qc 100 1) = (s2, true)
      ∧ positions s2 !! "BTCUSDT" = Some pos2
      ∧ amount pos2 = 1.
Proof.
  split; [apply reachable_held_ledger|]. split; [by vm_compute|].
  eexists _, _, _. split.
  { eapply (add_position_merge held_ledger "BTCUSDT" 1 (qc 100 1));
      [by vm_compute | reflexivity | by vm_compute]. }
  split.
  { erewrite remove_position_ok;
      [reflexivity | cbn; apply lookup_insert_eq | by vm_compute]. }
  cbn. rewrite bool_decide_eq_false_2 by by vm_compute.
  split; [apply lookup_insert_eq|]. cbn. by apply Qc_is_canon.
Qed.

(** The cash of the same round trip on doubles: with 1000.1 in cash,
    2 units bought at 78.4 (affordable) and sold back at 78.4, the
    balance ends below 1000.1. *)
Lemma cash_round_trip_rounds :
  let cash := Doubles.double 10001 10 in
  let a := Doubles.double 2 1 in
  let p := Doubles.double 784 10 in
  PrimFloat.ltb cash (PrimFloat.mul a p) = false
  ∧ PrimFloat.eqb
      (Doubles.cash_after_sale (Doubles.cash_after_buy cash a p) a p) cash = false
  ∧ PrimFloat.ltb
      (Doubles.cash_after_sale (Doubles.cash_after_buy cash a p) a p) cash = true.
Proof. cbv zeta. split; [|split]; vm_compute; reflexivity. Qed.

End Ledger.

(** ** The cycle (execution_engine.py) *)

Section Cycle.
Import BaseAgent PortfolioEngine.

Variable rolling_mean : Z → list Qc → Result (list (option Qc)).
Variable returns_volatility : list Qc → Qc.

(** *** The two risk inputs *)





(** *** The decision steps *)

Lemma scan_memory (s : ScoutAgent.t) (hist : list Qc) :
  ScoutAgent.memory (ScoutAgent.scan returns_volatility s hist).1
  = ScoutAgent.memory s.
Proof.
  unfold ScoutAgent.scan.
  repeat (case_match; try done).
Qed.

Lemma analyze_memory (a a' : AnalystAgent.t) (st : StrategyEngine.t)
    (ss : ScoutAgent.Decision) (hist : list Qc) (d : AnalystAgent.Decision) :
  AnalystAgent.analyze rolling_mean a st ss hist = Ok (a', d) →
  AnalystAgent.memory a' = AnalystAgent.memory a.
Proof.
  unfold AnalystAgent.analyze.
  destruct (StrategyEngine.generate_signal rolling_mean st hist); cbn; [|done].
  by intros [= <- _].
Qed.

Lemma analyze_total (a : AnalystAgent.t) (st : StrategyEngine.t)
    (ss : ScoutAgent.Decision) (hist : list Qc) :
  rolling_spec rolling_mean →
  (0 < StrategyEngine.short_window st)%Z →
  (0 < StrategyEngine.long_window st)%Z →
  ∃ a' d, AnalystAgent.analyze rolling_mean a st ss hist = Ok (a', d).
Proof.
  intros Hpandas Hs Hl. unfold AnalystAgent.analyze.
  destruct (generate_signal_total rolling_mean Hpandas st hist) as [sig ->];
    [lia | lia |].
  cbn. by eexists _, _.
Qed.

Lemma adapt_outcomes (g : RiskGuardianAgent.t) :
  outcomes (RiskGuardianAgent.memory (RiskGuardianAgent._adapt g))
  = outcomes (RiskGuardianAgent.memory g).
Proof. unfold RiskGuardianAgent._adapt. by repeat case_bool_decide. Qed.

(** [evaluate] never touches the outcome counters. *)
Lemma evaluate_outcomes (g g' : RiskGuardianAgent.t) (risk : RiskEngine.t)
    (p : AnalystAgent.Decision) (pv tov price : Qc) (d : RiskGuardianAgent.Decision) :
  RiskGuardianAgent.evaluate g risk p pv tov price = Ok (g', d) →
  outcomes (RiskGuardianAgent.memory g') = outcomes (RiskGuardianAgent.memory g).
Proof.
  unfold RiskGuardianAgent.evaluate.
  case_bool_decide.
  { case_bool_decide; intros [= <- _]; cbn; [done|]. by rewrite adapt_outcomes. }
  case_bool_decide; [by intros [= <- _]|].
  case_bool_decide; [by intros [= <- _]|].
  by rewrite calculate_position_size_kw_portfolio_value.
Qed.

(** A SELL decision comes from the approval branch alone: the guardian
    was not cooling down and nothing but its status and last decision
    changed. *)
Lemma evaluate_sell_inv (g g' : RiskGuardianAgent.t) (risk : RiskEngine.t)
    (p : AnalystAgent.Decision) (pv tov price : Qc) (d : RiskGuardianAgent.Decision) :
  RiskGuardianAgent.evaluate g risk p pv tov price = Ok (g', d) →
  RiskGuardianAgent.signal d = SELL →
  RiskGuardianAgent.memory g' = RiskGuardianAgent.memory g
  ∧ RiskGuardianAgent.cooldown_cycles_remaining g'
    = RiskGuardianAgent.cooldown_cycles_remaining g
  ∧ RiskGuardianAgent.size_modifier g' = RiskGuardianAgent.size_modifier g.
Proof.
  unfold RiskGuardianAgent.evaluate.
  case_bool_decide.
  { case_bool_decide; by intros [= <- <-]. }
  case_bool_decide; [by intros [= <- <-]|].
  case_bool_decide; [by intros [= <- <-]|].
  by rewrite calculate_position_size_kw_portfolio_value.
Qed.

(** The shape of a cycle's decision steps. *)
Lemma decide_cycle_inv (e e1 : ExecutionEngine.t) (sym : string) (price : Qc)
    (hist : list Qc) (inputs : Qc * Qc) (d : RiskGuardianAgent.Decision) :
  ExecutionEngine.decide_cycle rolling_mean returns_volatility e sym price hist
  = Ok (e1, inputs, d) →
  ∃ analyst' proposal guardian',
    AnalystAgent.analyze rolling_mean (ExecutionEngine.analyst e)
      (ExecutionEngine.strategy e)
      (ScoutAgent.scan returns_volatility (ExecutionEngine.scout e) hist).2 hist
    = Ok (analyst', proposal)
    ∧ inputs = (get_portfolio_value (ExecutionEngine.portfolio e) (cycle_prices sym price),
                ExecutionEngine.total_open_value_of
                  (positions (ExecutionEngine.portfolio e)) (cycle_prices sym price))
    ∧ RiskGuardianAgent.evaluate (ExecutionEngine.guardian e) (ExecutionEngine.risk e)
        proposal inputs.1 inputs.2 price
      = Ok (guardian', d)
    ∧ e1 = ExecutionEngine.with_agents e
             (ScoutAgent.scan returns_volatility (ExecutionEngine.scout e) hist).1
             analyst' guardian'.
Proof.
  unfold ExecutionEngine.decide_cycle, ExecutionEngine.risk_inputs.
  destruct (ScoutAgent.scan _ _ _) as [scout' ss]. cbn [fst snd].
  destruct (AnalystAgent.analyze _ _ _ _ _) as [[analyst' proposal]|]; cbn; [|done].
  destruct (RiskGuardianAgent.evaluate _ _ _ _ _ _) as [[guardian' d']|] eqn:He;
    cbn; [|done].
  intros [= <- <- <-]. by eexists _, _, _.
Qed.

(** The guardian is called with the two risk inputs. *)
Lemma decide_cycle_evaluate (e : ExecutionEngine.t) (sym : string) (price : Qc)
    (hist : list Qc) (analyst' : AnalystAgent.t) (proposal : AnalystAgent.Decision) :
  AnalystAgent.analyze rolling_mean (ExecutionEngine.analyst e)
    (ExecutionEngine.strategy e)
    (ScoutAgent.scan returns_volatility (ExecutionEngine.scout e) hist).2 hist
  = Ok (analyst', proposal) →
  ExecutionEngine.decide_cycle rolling_mean returns_volatility e sym price hist
  = '(guardian', d) ←
      RiskGuardianAgent.evaluate (ExecutionEngine.guardian e) (ExecutionEngine.risk e)
        proposal (ExecutionEngine.risk_inputs e sym price).1
        (ExecutionEngine.risk_inputs e sym price).2 price;
    Ok (ExecutionEngine.with_agents e
          (ScoutAgent.scan returns_volatility (ExecutionEngine.scout e) hist).1
          analyst' guardian',
        ExecutionEngine.risk_inputs e sym price, d).
Proof.
  unfold ExecutionEngine.decide_cycle.
  destruct (ScoutAgent.scan _ _ _) as [scout' ss]. cbn [fst snd].
  intros ->. cbn [mbind Result_bind]. reflexivity.
Qed.

End Cycle.


(** *** Settlement *)

Section Settlement.
Import BaseAgent PortfolioEngine.

Variable rolling_mean : Z → list Qc → Result (list (option Qc)).
Variable returns_volatility : list Qc → Qc.

(** The decision steps leave the ledger and the trade log alone, and the
    memories of the scout and of the analyst; the guardian keeps its
    outcome counters, and its whole memory when it decides SELL. *)
Lemma decide_cycle_frame (e e1 : ExecutionEngine.t) (sym : string) (price : Qc)
    (hist : list Qc) (inputs : Qc * Qc) (d : RiskGuardianAgent.Decision) :
  ExecutionEngine.decide_cycle rolling_mean returns_volatility e sym price hist
  = Ok (e1, inputs, d) →
  ExecutionEngine.portfolio e1 = ExecutionEngine.portfolio e
  ∧ ExecutionEngine.trade_history e1 = ExecutionEngine.trade_history e
  ∧ ScoutAgent.memory (ExecutionEngine.scout e1)
    = ScoutAgent.memory (ExecutionEngine.scout e)
  ∧ AnalystAgent.memory (ExecutionEngine.analyst e1)
    = AnalystAgent.memory (ExecutionEngine.analyst e)
  ∧ outcomes (RiskGuardianAgent.memory (ExecutionEngine.guardian e1))
    = outcomes (RiskGuardianAgent.memory (ExecutionEngine.guardian e))
  ∧ (RiskGuardianAgent.signal d = SELL →
       RiskGuardianAgent.memory (ExecutionEngine.guardian e1)
       = RiskGuardianAgent.memory (ExecutionEngine.guardian e)).
Proof.
  intros Hd.
  destruct (decide_cycle_inv _ _ _ _ _ _ _ _ _ Hd)
    as (analyst' & proposal & guardian' & Han & _ & Hev & ->).
  cbn. split; [done|]. split; [done|].
  split; [apply scan_memory|].
  split; [by eapply analyze_memory|].
  split; [by eapply evaluate_outcomes|].
  intros Hsell. by destruct (evaluate_sell_inv _ _ _ _ _ _ _ _ Hev Hsell).
Qed.

Lemma settle_sell_nothing_held (e1 : ExecutionEngine.t) (sym : string) (price : Qc)
    (d : RiskGuardianAgent.Decision) :
  RiskGuardianAgent.signal d = SELL →
  ¬ 0 < held_amount (ExecutionEngine.portfolio e1) sym →
  ExecutionEngine.settle e1 sym price d = Ok e1.
Proof.
  intros Hsell Hheld. unfold ExecutionEngine.settle. rewrite Hsell.
  rewrite bool_decide_eq_false_2, bool_decide_eq_true_2 by done.
  unfold get_position, held_amount in *.
  destruct (positions (ExecutionEngine.portfolio e1) !! sym) as [pos|]; [|done].
  by rewrite bool_decide_eq_false_2.
Qed.

Lemma settle_sell_held (e1 : ExecutionEngine.t) (sym : string) (price : Qc)
    (d : RiskGuardianAgent.Decision) (pos : Position) :
  RiskGuardianAgent.signal d = SELL →
  positions (ExecutionEngine.portfolio e1) !! sym = Some pos →
  0 < amount pos →
  ExecutionEngine.settle e1 sym price d
  = let realized_pnl := (price - average_entry_price pos) * amount pos in
    Ok (ExecutionEngine._log_trade
          (ExecutionEngine.with_agents
             (ExecutionEngine.with_portfolio e1
                {| initial_balance := initial_balance (ExecutionEngine.portfolio e1);
                   cash_balance := cash_balance (ExecutionEngine.portfolio e1)
                                   + amount pos * price;
                   positions := delete sym (positions (ExecutionEngine.portfolio e1)) |})
             (update_memory (ExecutionEngine.scout e1) realized_pnl)
             (update_memory (ExecutionEngine.analyst e1) realized_pnl)
             (update_memory (ExecutionEngine.guardian e1) realized_pnl))
          sym ExecutionEngine.LogSELL (amount pos) price
          (ExecutionEngine.PnlMemoryUpdated realized_pnl)).
Proof.
  intros Hsell Hpos Hheld. unfold ExecutionEngine.settle. rewrite Hsell.
  rewrite bool_decide_eq_false_2, bool_decide_eq_true_2 by done.
  unfold get_position. rewrite Hpos.
  rewrite bool_decide_eq_true_2 by done.
  rewrite (remove_position_ok _ _ _ _ pos Hpos) by apply Qcle_refl.
  rewrite bool_decide_eq_true_2 by apply Qc_sub_self_dust.
  reflexivity.
Qed.

(** Off the SELL branch the execution logic leaves the three agents as
    the decision steps left them. *)
Lemma settle_keeps_agents (e1 e2 : ExecutionEngine.t) (sym : string) (price : Qc)
    (d : RiskGuardianAgent.Decision) :
  ¬ (RiskGuardianAgent.signal d = SELL
     ∧ 0 < held_amount (ExecutionEngine.portfolio e1) sym) →
  ExecutionEngine.settle e1 sym price d = Ok e2 →
  ExecutionEngine.scout e2 = ExecutionEngine.scout e1
  ∧ ExecutionEngine.analyst e2 = ExecutionEngine.analyst e1
  ∧ ExecutionEngine.guardian e2 = ExecutionEngine.guardian e1.
Proof.
  intros Hnot. destruct (decide (RiskGuardianAgent.signal d = SELL)) as [Hsell|Hns].
  - rewrite settle_sell_nothing_held by tauto. by intros [= <-].
  - unfold ExecutionEngine.settle. case_bool_decide.
    + destruct (add_position _ _ _ _) as [[p' ok]|]; cbn; [|done].
      destruct ok; by intros [= <-].
    + rewrite bool_decide_eq_false_2 by done. by intros [= <-].
Qed.

(** C8, as the code has it.  Take a cycle whose decision steps return.
    If the guardian decides SELL and the ledger holds no position of
    positive amount in the symbol, the cycle returns with the ledger, the
    trade log and the three memories as they were.  If it decides SELL and
    a position is held, the cycle returns with the whole amount sold at the
    current price and the entry deleted, the realized P&L
    [(price - average_entry_price) * amount] passed to [update_memory] of
    all three agents, and one SELL entry appended to the trade log.  On
    every other path no agent's [update_memory] runs: the scout's and the
    analyst's memories and the guardian's outcome counters are as before.
    (The guardian's own adaptation is not confined to the SELL path:
    [evaluate] re-runs it on the tick that ends a cooldown.) *)
Theorem sell_decision_is_settled
    (e e1 : ExecutionEngine.t) (sym : string) (price : Qc) (hist : list Qc)
    (inputs : Qc * Qc) (d : RiskGuardianAgent.Decision) :
  ExecutionEngine.decide_cycle rolling_mean returns_volatility e sym price hist
  = Ok (e1, inputs, d) →
  (RiskGuardianAgent.signal d = SELL →
   ¬ 0 < held_amount (ExecutionEngine.portfolio e) sym →
   ∃ e2,
     ExecutionEngine.execute_cycle rolling_mean returns_volatility e sym price hist = Ok e2
     ∧ ExecutionEngine.portfolio e2 = ExecutionEngine.portfolio e
     ∧ ExecutionEngine.trade_history e2 = ExecutionEngine.trade_history e
     ∧ ScoutAgent.memory (ExecutionEngine.scout e2)
       = ScoutAgent.memory (ExecutionEngine.scout e)
     ∧ AnalystAgent.memory (ExecutionEngine.analyst e2)
       = AnalystAgent.memory (ExecutionEngine.analyst e)
     ∧ RiskGuardianAgent.memory (ExecutionEngine.guardian e2)
       = RiskGuardianAgent.memory (ExecutionEngine.guardian e))
  ∧ (RiskGuardianAgent.signal d = SELL →
     ∀ pos : Position,
       positions (ExecutionEngine.portfolio e) !! sym = Some pos →
       0 < amount pos →
       let realized_pnl := (price - average_entry_price pos) * amount pos in
       ∃ e2,
         ExecutionEngine.execute_cycle rolling_mean returns_volatility e sym price hist = Ok e2
         ∧ cash_balance (ExecutionEngine.portfolio e2)
           = cash_balance (ExecutionEngine.portfolio e) + amount pos * price
         ∧ positions (ExecutionEngine.portfolio e2)
           = delete sym (positions (ExecutionEngine.portfolio e))
         ∧ ExecutionEngine.scout e2
           = update_memory (ExecutionEngine.scout e1) realized_pnl
         ∧ ExecutionEngine.analyst e2
           = update_memory (ExecutionEngine.analyst e1) realized_pnl
         ∧ ExecutionEngine.guardian e2
           = update_memory (ExecutionEngine.guardian e1) realized_pnl
         ∧ ExecutionEngine.trade_history e2
           = ExecutionEngine.trade_history e
             ++ [ {| ExecutionEngine.symbol := sym;
                     ExecutionEngine.action := ExecutionEngine.LogSELL;
                     ExecutionEngine.amount := amount pos;
                     ExecutionEngine.price := price;
                     ExecutionEngine.value := amount pos * price;
                     ExecutionEngine.note :=
                       ExecutionEngine.PnlMemoryUpdated realized_pnl |} ])
  ∧ (¬ (RiskGuardianAgent.signal d = SELL
        ∧ 0 < held_amount (ExecutionEngine.portfolio e) sym) →
     ∀ e2,
       ExecutionEngine.execute_cycle rolling_mean returns_volatility e sym price hist = Ok e2 →
       ScoutAgent.memory (ExecutionEngine.scout e2)
       = ScoutAgent.memory (ExecutionEngine.scout e)
       ∧ AnalystAgent.memory (ExecutionEngine.analyst e2)
         = AnalystAgent.memory (ExecutionEngine.analyst e)
       ∧ outcomes (RiskGuardianAgent.memory (ExecutionEngine.guardian e2))
         = outcomes (RiskGuardianAgent.memory (ExecutionEngine.guardian e))).
Proof.
  intros Hd.
  destruct (decide_cycle_frame _ _ _ _ _ _ _ Hd)
    as (Hpf & Hlog & Hscout & Hanalyst & Hout & Hguard).
  assert (ExecutionEngine.execute_cycle rolling_mean returns_volatility e sym price hist
          = ExecutionEngine.settle e1 sym price d) as Hexec.
  { unfold ExecutionEngine.execute_cycle. by rewrite Hd. }
  rewrite Hexec. clear Hexec. split; [|split].
  - intros Hsell Hnone. exists e1.
    rewrite settle_sell_nothing_held by (by rewrite ?Hpf).
    auto 10.
  - intros Hsell pos Hpos Hheld. cbn zeta.
    rewrite <-Hpf in Hpos.
    rewrite (settle_sell_held _ _ _ _ pos Hsell Hpos Hheld). cbn zeta.
    eexists. split; [reflexivity|]. cbn. by rewrite Hpf, Hlog.
  - intros Hnot e2 Hsettle. rewrite <-Hpf in Hnot.
    destruct (settle_keeps_agents _ _ _ _ _ Hnot Hsettle) as (-> & -> & ->).
    done.
Qed.

End Settlement.

(** A coordinator whose ledger holds one unit bought at 100, and a cycle
    at 90 on three closes that end in a fall: the guardian decides SELL,
    the position goes and the log gets its first entry. *)
Lemma sell_decision_is_settled_witness :
  ∃ e2,
    ExecutionEngine.execute_cycle exact_rolling_mean unread_volatility
      engine_holding "BTCUSDT" (qc 90 1) falling_closes = Ok e2
    ∧ PortfolioEngine.positions (ExecutionEngine.portfolio e2) !! "BTCUSDT" = None
    ∧ length (ExecutionEngine.trade_history e2) = 1%nat.
Proof.
  destruct (ExecutionEngine.decide_cycle exact_rolling_mean unread_volatility
              engine_holding "BTCUSDT" (qc 90 1) falling_closes)
    as [[[e1 inputs] d]|] eqn:Hd.
  - assert (decision_of
              (ExecutionEngine.decide_cycle exact_rolling_mean unread_volatility
                 engine_holding "BTCUSDT" (qc 90 1) falling_closes)
            = Some {| RiskGuardianAgent.signal := SELL;
                      RiskGuardianAgent.amount := - 1;
                      RiskGuardianAgent.reason :=
                        RiskGuardianAgent.SellApprovedByRiskLogic |}) as Hdec.
    { vm_compute. reflexivity. }
    rewrite Hd in Hdec. injection Hdec as ->.
    destruct (sell_decision_is_settled exact_rolling_mean unread_volatility
                _ _ _ _ _ _ _ Hd) as (_ & Hheld & _).
    destruct (Hheld eq_refl
                {| PortfolioEngine.amount := 1;
                   PortfolioEngine.average_entry_price := qc 100 1 |})
      as (e2 & Hexec & _ & Hposs & _ & _ & _ & Hlog).
    + reflexivity.
    + by vm_compute.
    + exists e2. split; [exact Hexec|].
      split; [rewrite Hposs; apply lookup_delete_eq|].
      rewrite Hlog. reflexivity.
  - exfalso.
    assert (decision_of
              (ExecutionEngine.decide_cycle exact_rolling_mean unread_volatility
                 engine_holding "BTCUSDT" (qc 90 1) falling_closes) ≠ None) as Hdec
      by (vm_compute; discriminate).
    rewrite Hd in Hdec. exact (Hdec eq_refl).
Defined.

(** C8, counterexample to "the only path on which any agent adaptation is
    triggered".  A coordinator whose guardian has been told of three
    losing trades is on a streak of -3 with a cooldown of 5.  Four cycles
    on an empty history leave one tick.  The next cycle is blocked: the
    decision is HOLD with amount 0, the trade log does not grow and no
    memory is updated; yet [evaluate] calls the guardian's [_adapt] on
    this path, and the adaptation sets the cooldown counter, which the
    tick had brought to zero, to 5. *)
Lemma adaptation_runs_on_a_blocked_cycle :
  ∃ e4 e5 : ExecutionEngine.t,
    run_cycles exact_rolling_mean unread_volatility engine_cooling
      (replicate 4 idle_cycle) = Ok e4
    ∧ RiskGuardianAgent.cooldown_cycles_remaining (ExecutionEngine.guardian e4) = 1%Z
    ∧ ExecutionEngine.execute_cycle exact_rolling_mean unread_volatility e4
        "BTCUSDT" (qc 100 1) [] = Ok e5
    ∧ RiskGuardianAgent.last_decision (ExecutionEngine.guardian e5) = Some blocked
    ∧ ExecutionEngine.trade_history e5 = ExecutionEngine.trade_history e4
    ∧ ExecutionEngine.portfolio e5 = ExecutionEngine.portfolio e4
    ∧ outcomes (RiskGuardianAgent.memory (ExecutionEngine.guardian e5))
      = outcomes (RiskGuardianAgent.memory (ExecutionEngine.guardian e4))
    ∧ ExecutionEngine.guardian e5
      = (RiskGuardianAgent.decide_with
           (RiskGuardianAgent._adapt
              (RiskGuardianAgent.set_cooldown (ExecutionEngine.guardian e4) 0))
           RiskGuardianAgent.CooldownFinished blocked).1
    ∧ RiskGuardianAgent.cooldown_cycles_remaining
        (RiskGuardianAgent.set_cooldown (ExecutionEngine.guardian e4) 0) = 0%Z
    ∧ RiskGuardianAgent.cooldown_cycles_remaining (ExecutionEngine.guardian e5) = 5%Z.
Proof.
  eexists _, _.
  split; [vm_compute; reflexivity|]. split; [vm_compute; reflexivity|].
  split; [vm_compute; reflexivity|]. split; [vm_compute; reflexivity|].
  split; [vm_compute; reflexivity|]. split; [vm_compute; reflexivity|].
  split; [vm_compute; reflexivity|]. split; [vm_compute; reflexivity|].
  split; vm_compute; reflexivity.
Qed.

(** * Further properties *)

(** ** The ledger, continued *)

Section LedgerMore.
Import PortfolioEngine.

Lemma add_position_false (s s' : PortfolioEngine.t) (sym : string) (a p : Qc) :
  add_position s sym a p = Ok (s', false) → s' = s ∧ cash_balance s < a * p.
Proof.
  unfold add_position. case_bool_decide; [by intros [= ->]|].
  cbn. destruct (positions s !! sym); [|done].
  by destruct (decide (_ = 0)).
Qed.

(** X1.  A ledger opened with a non-negative balance never shows a
    negative cash balance, whatever purchases and sales (non-negative
    amounts, positive prices) are made. *)
Theorem cash_is_never_negative (s : PortfolioEngine.t) :
  reachable s → 0 ≤ initial_balance s → 0 ≤ cash_balance s.
Proof.
  induction 1 as [b | s sym a p s' ok Hr IH Ha Hp Hadd
                    | s sym a p s' ok Hr IH Ha Hp Hrem]; intros Hib.
  - done.
  - unfold add_position in Hadd. case_bool_decide as Hc.
    { simplify_eq. auto. }
    apply Qcnot_lt_le in Hc. cbn in Hadd.
    destruct (positions s !! sym) as [old|].
    + destruct (decide (amount old + a = 0)); [done|]. simplify_eq. cbn.
      by apply Qc_sub_nonneg.
    + simplify_eq. cbn. by apply Qc_sub_nonneg.
  - destruct ok; [|apply remove_position_false in Hrem; subst; auto].
    destruct (remove_position_true _ _ _ _ _ Hrem) as (old & Hold & Hle).
    rewrite (remove_position_ok _ _ _ _ _ Hold Hle) in Hrem. simplify_eq.
    cbn in *. specialize (IH Hib).
    apply Qc_add_nonneg; [done|]. qc2q. nra.
Qed.

Lemma cash_is_never_negative_witness : 0 ≤ cash_balance held_ledger.
Proof.
  apply cash_is_never_negative; [apply reachable_held_ledger | by vm_compute].
Defined.

(** X2.  A refused call changes nothing, and the refusals are exactly
    these: [add_position] returns [False] when, and only when, the cost
    exceeds the cash balance; [remove_position] returns [False] when, and
    only when, the symbol has no entry or holds less than the amount
    asked. *)
Theorem refusals_leave_the_ledger_alone
    (s s' : PortfolioEngine.t) (sym : string) (a p : Qc) :
  (add_position s sym a p = Ok (s', false) ↔ cash_balance s < a * p ∧ s' = s)
  ∧ (remove_position s sym a p = (s', false) ↔ cannot_sell s sym a ∧ s' = s).
Proof.
  split.
  - split.
    + unfold add_position. case_bool_decide; [by intros [= ->]|].
      cbn. destruct (positions s !! sym); [|done].
      by destruct (decide (_ = 0)).
    + intros [Hc ->]. by apply add_position_insufficient.
  - unfold remove_position, cannot_sell.
    destruct (positions s !! sym) as [pos|].
    + case_bool_decide.
      * split; [by intros [= ->]|by intros [_ ->]].
      * split; [by case_bool_decide|by intros [? _]].
    + split; [by intros [= ->]|by intros [_ ->]].
Qed.



(** X6.  Both operations are local to their symbol: whatever they
    return, the initial balance and the entries of all other symbols are
    as before.  A sale, moreover, never changes an average entry price:
    the entry that remains for the symbol carries the price it had. *)
Theorem trades_touch_one_symbol
    (s s' : PortfolioEngine.t) (sym : string) (a p : Qc) (ok : bool) :
  (add_position s sym a p = Ok (s', ok) →
   initial_balance s' = initial_balance s
   ∧ ∀ o, o ≠ sym → positions s' !! o = positions s !! o)
  ∧ (remove_position s sym a p = (s', ok) →
     initial_balance s' = initial_balance s
     ∧ (∀ o, o ≠ sym → positions s' !! o = positions s !! o)
     ∧ ∀ pos', positions s' !! sym = Some pos' →
         ∃ pos, positions s !! sym = Some pos
                ∧ average_entry_price pos' = average_entry_price pos).
Proof.
  split.
  - unfold add_position. case_bool_decide; [by intros [= <- _]|]. cbn.
    destruct (positions s !! sym) as [pos|].
    + destruct (decide (_ = 0)); [done|]. intros [= <- _]. cbn.
      split; [done|]. intros o Ho. by rewrite lookup_insert_ne.
    + intros [= <- _]. cbn.
      split; [done|]. intros o Ho. by rewrite lookup_insert_ne.
  - intros Hrem. destruct ok.
    + destruct (remove_position_true _ _ _ _ _ Hrem) as (pos & Hpos & Hle).
      rewrite (remove_position_ok _ _ _ _ _ Hpos Hle) in Hrem.
      injection Hrem as <-. cbn. split; [done|]. case_bool_decide.
      * split; [intros o Ho; by rewrite lookup_delete_ne|].
        intros pos'. by rewrite lookup_delete_eq.
      * split; [intros o Ho; by rewrite lookup_insert_ne|].
        intros pos'. rewrite lookup_insert_eq. intros [= <-]. by exists pos.
    + apply remove_position_false in Hrem. subst s'.
      split; [done|]. split; [done|]. intros pos' Hpos'. by exists pos'.
Qed.

(** A quarter of the unit held is sold at 250: what remains is still
    entered at 100. *)
Lemma trades_touch_one_symbol_witness :
  ∃ pos',
    positions (remove_position held_ledger "BTCUSDT" (qc 1 4) (qc 250 1)).1
      !! "BTCUSDT" = Some pos'
    ∧ average_entry_price pos' = qc 100 1.
Proof.
  destruct (trades_touch_one_symbol held_ledger
              (remove_position held_ledger "BTCUSDT" (qc 1 4) (qc 250 1)).1
              "BTCUSDT" (qc 1 4) (qc 250 1)
              (remove_position held_ledger "BTCUSDT" (qc 1 4) (qc 250 1)).2)
    as [_ Hsell].
  destruct Hsell as (_ & _ & Hprice); [by destruct (remove_position _ _ _ _)|].
  assert (is_Some (positions (remove_position held_ledger "BTCUSDT" (qc 1 4)
                                (qc 250 1)).1 !! "BTCUSDT")) as [pos' Hpos'].
  { rewrite (remove_position_ok held_ledger "BTCUSDT" (qc 1 4) (qc 250 1)
               {| amount := 1; average_entry_price := qc 100 1 |});
      [|reflexivity|by vm_compute].
    cbn [fst positions]. rewrite bool_decide_eq_false_2 by by vm_compute.
    rewrite lookup_insert_eq. by eexists. }
  exists pos'. split; [exact Hpos'|].
  destruct (Hprice pos' Hpos') as (pos & Hpos & ->).
  by injection Hpos as <-.
Defined.

End LedgerMore.

(** ** Risk limits and parameters, continued *)

Section RiskMore.
Import RiskEngine StrategyEngine.

(** X8.  The parameters stay within their bounds: from windows with
    [0 < short < long] and percentages in (0, 1], any call of the two
    update methods, with any arguments, gives windows and percentages
    within the same bounds. *)
Theorem updates_keep_the_parameters_in_bounds
    (s : StrategyEngine.t) (r : RiskEngine.t) (sw lw : Z) (mp me : Qc) :
  strategy_wf s → risk_wf r →
  strategy_wf (update_strategy_parameters s sw lw)
  ∧ risk_wf (update_risk_parameters r mp me).
Proof.
  intros Hs Hr. split; [|by apply risk_wf_update].
  unfold update_strategy_parameters, strategy_wf in *.
  destruct (bool_decide (0 < sw)%Z && bool_decide (sw < lw)%Z) eqn:E; [|done].
  apply andb_true_iff in E as [E1%bool_decide_eq_true E2%bool_decide_eq_true].
  by cbn.
Qed.

(** The defaults, updated with crossed windows and a percentage above 1. *)
Lemma updates_keep_the_parameters_in_bounds_witness :
  strategy_wf (update_strategy_parameters StrategyEngine.default 30 10)
  ∧ risk_wf (update_risk_parameters RiskEngine.default (qc 3 2) (qc 1 2)).
Proof.
  apply updates_keep_the_parameters_in_bounds.
  - unfold strategy_wf. cbn. lia.
  - apply risk_wf_default.
Defined.

End RiskMore.

(** ** Agent memory, continued *)

Section MemoryMore.
Import BaseAgent.

Lemma record_outcome_consistent (m : Memory) (pnl : Qc) :
  memory_consistent m →
  memory_consistent (record_outcome m pnl)
  ∧ total_trades (record_outcome m pnl) = (total_trades m + 1)%Z.
Proof.
  unfold memory_consistent, record_outcome. intros H.
  repeat case_bool_decide; cbn; lia.
Qed.

Lemma scout_adapt_outcomes (a : ScoutAgent.t) :
  outcomes (ScoutAgent.memory (ScoutAgent._adapt a)) = outcomes (ScoutAgent.memory a).
Proof. unfold ScoutAgent._adapt. by case_bool_decide. Qed.

Lemma analyst_adapt_outcomes (a : AnalystAgent.t) :
  outcomes (AnalystAgent.memory (AnalystAgent._adapt a))
  = outcomes (AnalystAgent.memory a).
Proof. unfold AnalystAgent._adapt. by repeat case_bool_decide. Qed.

Lemma consistent_by_outcomes (m m' : Memory) :
  outcomes m' = outcomes m → memory_consistent m → memory_consistent m'.
Proof. unfold outcomes, memory_consistent. intros [= -> -> -> ->]. done. Qed.

Lemma total_by_outcomes (m m' : Memory) :
  outcomes m' = outcomes m → total_trades m' = total_trades m.
Proof. unfold outcomes. by intros [= -> _ _ _]. Qed.

(** One settled trade, for each of the three agents. *)
Lemma update_memory_consistent :
  (∀ (a : ScoutAgent.t) pnl,
     memory_consistent (get_memory a) →
     memory_consistent (get_memory (update_memory a pnl))
     ∧ total_trades (get_memory (update_memory a pnl))
       = (total_trades (get_memory a) + 1)%Z)
  ∧ (∀ (a : AnalystAgent.t) pnl,
       memory_consistent (get_memory a) →
       memory_consistent (get_memory (update_memory a pnl))
       ∧ total_trades (get_memory (update_memory a pnl))
         = (total_trades (get_memory a) + 1)%Z)
  ∧ (∀ (a : RiskGuardianAgent.t) pnl,
       memory_consistent (get_memory a) →
       memory_consistent (get_memory (update_memory a pnl))
       ∧ total_trades (get_memory (update_memory a pnl))
         = (total_trades (get_memory a) + 1)%Z).
Proof.
  split; [|split]; intros a pnl H;
    destruct (record_outcome_consistent (get_memory a) pnl H) as [Hc Ht];
    unfold update_memory; cbn in *.
  - split.
    + eapply consistent_by_outcomes; [apply scout_adapt_outcomes|done].
    + erewrite total_by_outcomes; [|apply scout_adapt_outcomes]. done.
  - split.
    + eapply consistent_by_outcomes; [apply analyst_adapt_outcomes|done].
    + erewrite total_by_outcomes; [|apply analyst_adapt_outcomes]. done.
  - split.
    + eapply consistent_by_outcomes; [apply adapt_outcomes|done].
    + erewrite total_by_outcomes; [|apply adapt_outcomes]. done.
Qed.

(** X9.  After any sequence of settled trades reported to a fresh scout,
    analyst or guardian, the memory has counted every trade, the wins and
    losses are non-negative and together at most the number of trades (a
    break-even trade is neither), and the streak is at most the number of
    wins and at least minus the number of losses. *)
Theorem memory_counts_every_trade (pnls : list Qc) :
  (memory_consistent (get_memory (after_outcomes ScoutAgent.init pnls))
   ∧ total_trades (get_memory (after_outcomes ScoutAgent.init pnls))
     = Z.of_nat (length pnls))
  ∧ (memory_consistent (get_memory (after_outcomes AnalystAgent.init pnls))
     ∧ total_trades (get_memory (after_outcomes AnalystAgent.init pnls))
       = Z.of_nat (length pnls))
  ∧ (memory_consistent (get_memory (after_outcomes RiskGuardianAgent.init pnls))
     ∧ total_trades (get_memory (after_outcomes RiskGuardianAgent.init pnls))
       = Z.of_nat (length pnls)).
Proof.
  destruct update_memory_consistent as (Hs & Ha & Hg).
  unfold after_outcomes.
  induction pnls as [|pnl pnls IH] using rev_ind.
  - cbn. unfold memory_consistent. cbn. repeat split; lia.
  - rewrite !foldl_snoc, length_app. cbn [length].
    destruct IH as ((IH1 & IH1') & (IH2 & IH2') & (IH3 & IH3')).
    destruct (Hs _ pnl IH1) as [Hc1 Ht1]. destruct (Ha _ pnl IH2) as [Hc2 Ht2].
    destruct (Hg _ pnl IH3) as [Hc3 Ht3].
    split; [|split]; (split; [assumption|]).
    + rewrite Ht1, IH1'. lia.
    + rewrite Ht2, IH2'. lia.
    + rewrite Ht3, IH3'. lia.
Qed.

End MemoryMore.

(** ** The risk guardian, continued *)

Section GuardianMore.
Import BaseAgent RiskEngine RiskGuardianAgent.

Lemma set_adaptations_twice (m : Memory) (l1 l2 : list string) :
  set_adaptations (set_adaptations m l1) l2 = set_adaptations m l2.
Proof. reflexivity. Qed.

(** X10.  Adapting twice is adapting once, for each of the three agents:
    [_adapt] depends on the streak alone and sets what it sets outright.
    For the guardian this includes the cooldown: a cooldown in progress is
    never prolonged by [_adapt], and one is started (at 5) only from a
    counter of zero on a streak of -3 or worse. *)
Theorem adaptation_is_idempotent :
  (∀ a : ScoutAgent.t, ScoutAgent._adapt (ScoutAgent._adapt a) = ScoutAgent._adapt a)
  ∧ (∀ a : AnalystAgent.t,
       AnalystAgent._adapt (AnalystAgent._adapt a) = AnalystAgent._adapt a)
  ∧ (∀ g : RiskGuardianAgent.t, _adapt (_adapt g) = _adapt g)
  ∧ (∀ g : RiskGuardianAgent.t,
       cooldown_cycles_remaining g ≠ 0%Z →
       cooldown_cycles_remaining (_adapt g) = cooldown_cycles_remaining g)
  ∧ (∀ g : RiskGuardianAgent.t,
       cooldown_cycles_remaining g = 0%Z →
       cooldown_cycles_remaining (_adapt g)
       = if bool_decide (current_streak (memory g) ≤ -3)%Z then 5%Z else 0%Z).
Proof.
  split; [|split; [|split; [|split]]].
  - intros a. unfold ScoutAgent._adapt.
    destruct (bool_decide (current_streak (ScoutAgent.memory a) ≤ -3)%Z) eqn:E;
      cbn; by rewrite E.
  - intros a. unfold AnalystAgent._adapt.
    destruct (bool_decide (current_streak (AnalystAgent.memory a) ≤ -2)%Z) eqn:E1;
      cbn; rewrite ?E1; [done|].
    destruct (bool_decide (2 ≤ current_streak (AnalystAgent.memory a))%Z) eqn:E2;
      cbn; by rewrite ?E1, ?E2.
  - intros g. unfold _adapt.
    destruct (bool_decide (current_streak (memory g) ≤ -3)%Z) eqn:E1;
      cbn; rewrite ?E1.
    { unfold adapted. cbn. f_equal. repeat case_bool_decide; done. }
    destruct (bool_decide (current_streak (memory g) ≤ -1)%Z) eqn:E2;
      cbn; rewrite ?E1, ?E2; [done|].
    destruct (bool_decide (3 ≤ current_streak (memory g))%Z) eqn:E3;
      cbn; by rewrite ?E1, ?E2, ?E3.
  - intros g Hc. unfold _adapt. repeat case_bool_decide; done.
  - intros g Hc. unfold _adapt. repeat case_bool_decide; done.
Qed.

(** X11.  The guardian never goes beyond the proposal, and never beyond
    the limits.  Whatever [evaluate] returns is also stored as its last
    decision, and is one of three things: HOLD with amount 0; SELL with
    the sentinel amount -1, and then the proposal was SELL and the
    guardian was not cooling down; or BUY, and then the proposal was BUY,
    the guardian was not cooling down, and the value of the amount at the
    current price passes both the position-size and the exposure limit.
    (As the sizing call stands, the third case does not arise: a BUY
    proposal outside a cooldown makes [evaluate] raise.) *)
Theorem evaluate_stays_within_proposal_and_limits
    (g g' : RiskGuardianAgent.t) (risk : RiskEngine.t)
    (p : AnalystAgent.Decision) (pv tov price : Qc) (d : Decision) :
  evaluate g risk p pv tov price = Ok (g', d) →
  last_decision g' = Some d
  ∧ ((signal d = HOLD ∧ amount d = 0)
     ∨ (signal d = SELL ∧ amount d = - 1
        ∧ AnalystAgent.signal p = SELL
        ∧ (cooldown_cycles_remaining g ≤ 0)%Z)
     ∨ (signal d = BUY
        ∧ AnalystAgent.signal p = BUY
        ∧ (cooldown_cycles_remaining g ≤ 0)%Z
        ∧ amount d * price ≤ pv * max_position_pct risk
        ∧ tov + amount d * price ≤ pv * max_exposure_pct risk)).
Proof.
  unfold evaluate. case_bool_decide as Hcool.
  { case_bool_decide; intros [= <- <-]; cbn; split; try done; by left. }
  case_bool_decide as Hhold; [intros [= <- <-]; cbn; split; [done|by left]|].
  case_bool_decide as Hsell.
  { intros [= <- <-]; cbn. split; [done|]. right; left.
    repeat split; [done|lia]. }
  by rewrite calculate_position_size_kw_portfolio_value.
Qed.

(** A fresh guardian and a SELL proposal: approved with the sentinel. *)
Lemma evaluate_stays_within_proposal_and_limits_witness :
  ∃ g' d,
    evaluate RiskGuardianAgent.init RiskEngine.default (propose SELL)
      (qc 10000 1) 0 (qc 100 1) = Ok (g', d)
    ∧ last_decision g' = Some d.
Proof.
  destruct (evaluate_returns RiskGuardianAgent.init RiskEngine.default
              (propose SELL) (qc 10000 1) 0 (qc 100 1)) as (g' & d & Hev);
    [by right|].
  exists g', d. split; [exact Hev|].
  exact (proj1 (evaluate_stays_within_proposal_and_limits _ _ _ _ _ _ _ _ Hev)).
Defined.

(** X12.  The cooldown counter of a guardian stays between 0 and 5: the
    fresh guardian has 0, and neither [update_memory] nor [evaluate]
    takes a counter in that range out of it. *)
Theorem cooldown_stays_in_range (g : RiskGuardianAgent.t) :
  cooldown_in_range g →
  cooldown_in_range RiskGuardianAgent.init
  ∧ (∀ pnl, cooldown_in_range (update_memory g pnl))
  ∧ (∀ risk p pv tov price g' d,
       evaluate g risk p pv tov price = Ok (g', d) → cooldown_in_range g').
Proof.
  unfold cooldown_in_range. intros Hg. split; [cbn; lia|]. split.
  - intros pnl. unfold update_memory. cbn. unfold _adapt. cbn.
    repeat case_bool_decide; cbn; lia.
  - intros risk p pv tov price g' d. unfold evaluate.
    case_bool_decide.
    { case_bool_decide; intros [= <- _]; cbn; [lia|].
      unfold _adapt. cbn. repeat case_bool_decide; cbn; lia. }
    case_bool_decide; [by intros [= <- _]|].
    case_bool_decide; [by intros [= <- _]|].
    by rewrite calculate_position_size_kw_portfolio_value.
Qed.

Lemma cooldown_stays_in_range_witness :
  cooldown_in_range (guardian_after_losses 3).
Proof.
  destruct (cooldown_stays_in_range (guardian_after_losses 2)) as (_ & Hupd & _).
  - unfold cooldown_in_range. by vm_compute.
  - apply Hupd.
Defined.

(** X13.  What [evaluate] changes.  It never touches the outcome
    counters.  On a guardian that is not cooling down it changes the
    status and the last decision and nothing else.  On a guardian with
    more than one cycle of cooldown left it takes one cycle off, blocks
    the proposal and leaves memory and size modifier alone. *)
Theorem evaluate_changes_little
    (g g' : RiskGuardianAgent.t) (risk : RiskEngine.t)
    (p : AnalystAgent.Decision) (pv tov price : Qc) (d : Decision) :
  evaluate g risk p pv tov price = Ok (g', d) →
  name g' = name g
  ∧ outcomes (memory g') = outcomes (memory g)
  ∧ ((cooldown_cycles_remaining g ≤ 0)%Z →
     memory g' = memory g
     ∧ cooldown_cycles_remaining g' = cooldown_cycles_remaining g
     ∧ size_modifier g' = size_modifier g)
  ∧ ((1 < cooldown_cycles_remaining g)%Z →
     d = blocked
     ∧ memory g' = memory g
     ∧ cooldown_cycles_remaining g' = (cooldown_cycles_remaining g - 1)%Z
     ∧ size_modifier g' = size_modifier g).
Proof.
  intros Hev. split; [|split; [by eapply evaluate_outcomes|]].
  - revert Hev. unfold evaluate. case_bool_decide.
    { case_bool_decide; intros [= <- _]; cbn; [done|].
      unfold _adapt. by repeat case_bool_decide. }
    case_bool_decide; [by intros [= <- _]|].
    case_bool_decide; [by intros [= <- _]|].
    by rewrite calculate_position_size_kw_portfolio_value.
  - split.
    + intros Hc. revert Hev. unfold evaluate.
      rewrite bool_decide_eq_false_2 by lia.
      case_bool_decide; [by intros [= <- _]|].
      case_bool_decide; [by intros [= <- _]|].
      by rewrite calculate_position_size_kw_portfolio_value.
    + intros Hc. rewrite evaluate_cooling in Hev by lia. cbn zeta in Hev.
      rewrite bool_decide_eq_true_2 in Hev by lia.
      by injection Hev as <- <-.
Qed.

(** A guardian three losses down, in the first cycle of its cooldown. *)
Lemma evaluate_changes_little_witness :
  ∃ g' d,
    evaluate (guardian_after_losses 3) RiskEngine.default (propose BUY)
      (qc 10000 1) 0 (qc 100 1) = Ok (g', d)
    ∧ d = blocked
    ∧ cooldown_cycles_remaining g' = 4%Z.
Proof.
  destruct (evaluate_returns (guardian_after_losses 3) RiskEngine.default
              (propose BUY) (qc 10000 1) 0 (qc 100 1)) as (g' & d & Hev);
    [left; by vm_compute|].
  destruct (evaluate_changes_little _ _ _ _ _ _ _ _ Hev) as (_ & _ & _ & Hcool).
  destruct Hcool as (Hd & _ & Hc & _); [by vm_compute|].
  exists g', d. split; [exact Hev|]. split; [exact Hd|]. rewrite Hc. reflexivity.
Defined.

(** X15.  How the guardian reacts to a settled trade.  A loss on a
    streak that already stands at -2 or below halves the size modifier
    and, if no cooldown is running, starts one of 5 cycles; a running
    cooldown keeps its count.  A win lifts every size reduction (the
    modifier is 1, or 1.25 from the third win in a row) but does not
    shorten a running cooldown. *)
Theorem guardian_reacts_to_outcomes (g : RiskGuardianAgent.t) (pnl : Qc) :
  (pnl < 0 → (streak_of g ≤ -2)%Z →
   size_modifier (update_memory g pnl) = qc 1 2
   ∧ cooldown_cycles_remaining (update_memory g pnl)
     = if bool_decide (cooldown_cycles_remaining g = 0%Z)
       then 5%Z else cooldown_cycles_remaining g)
  ∧ (0 < pnl →
     size_modifier (update_memory g pnl)
     = (if bool_decide (2 ≤ streak_of g)%Z then qc 5 4 else 1)
     ∧ cooldown_cycles_remaining (update_memory g pnl)
       = cooldown_cycles_remaining g).
Proof.
  unfold streak_of, update_memory. cbn. split.
  - intros Hneg Hs. unfold _adapt. cbn.
    rewrite (record_outcome_loss _ _ Hneg).
    rewrite (bool_decide_eq_true_2 (current_streak (memory g) < 0)%Z) by lia.
    by rewrite bool_decide_eq_true_2 by lia.
  - intros Hpos. unfold _adapt. cbn.
    rewrite (record_outcome_win _ _ Hpos).
    destruct (decide (0 < current_streak (memory g))%Z) as [H0|H0].
    + rewrite (bool_decide_eq_true_2 (0 < _)%Z) by done.
      rewrite !bool_decide_eq_false_2 by lia.
      case_bool_decide; [rewrite bool_decide_eq_true_2 by lia
                        |rewrite bool_decide_eq_false_2 by lia]; done.
    + rewrite (bool_decide_eq_false_2 (0 < _)%Z) by done.
      by rewrite !bool_decide_eq_false_2 by lia.
Qed.

(** The third loss in a row. *)
Lemma guardian_reacts_to_outcomes_witness :
  size_modifier (guardian_after_losses 3) = qc 1 2
  ∧ cooldown_cycles_remaining (guardian_after_losses 3) = 5%Z.
Proof.
  destruct (guardian_reacts_to_outcomes (guardian_after_losses 2) (- 1))
    as [Hloss _].
  destruct Hloss as [Hsm Hcd]; [by vm_compute | by vm_compute |].
  split; [exact Hsm | exact Hcd].
Defined.

End GuardianMore.

(** ** The scout and the analyst *)

Section ScoutAnalyst.
Import BaseAgent.

Variable rolling_mean : Z → list Qc → Result (list (option Qc)).
Variable returns_volatility : list Qc → Qc.

(** X16.  What the scout reports.  On fewer than five closes it reports
    HOLD for lack of data, with no volatility.  On five or more it
    reports the measured volatility, and when that is above its threshold
    the signal is HOLD whatever the momentum: BUY or SELL are reported
    only at or below the threshold.  A scan never changes the scout's
    memory or its threshold, and the report is kept as its last
    decision. *)
Theorem scout_reports
    (s : ScoutAgent.t) (hist : list Qc) :
  let r := ScoutAgent.scan returns_volatility s hist in
  ScoutAgent.memory r.1 = ScoutAgent.memory s
  ∧ ScoutAgent.volatility_threshold r.1 = ScoutAgent.volatility_threshold s
  ∧ ScoutAgent.last_decision r.1 = Some r.2
  ∧ ((length hist < 5)%nat →
     r.2 = {| ScoutAgent.signal := HOLD;
              ScoutAgent.reason := ScoutAgent.InsufficientData;
              ScoutAgent.volatility := None |}
     ∧ ScoutAgent.status r.1 = ScoutAgent.WaitingForData)
  ∧ ((5 ≤ length hist)%nat →
     ScoutAgent.volatility r.2 = Some (returns_volatility hist)
     ∧ ScoutAgent.status r.1 = ScoutAgent.Scanned (returns_volatility hist)
     ∧ (ScoutAgent.volatility_threshold s < returns_volatility hist →
        ScoutAgent.signal r.2 = HOLD)
     ∧ (ScoutAgent.signal r.2 ≠ HOLD →
        returns_volatility hist ≤ ScoutAgent.volatility_threshold s)).
Proof.
  cbn zeta. unfold ScoutAgent.scan.
  rewrite <-(length_reverse hist).
  destruct (reverse hist) as [|x1 [|x2 [|x3 [|x4 [|x5 rest]]]]]; cbn [length];
    try (repeat split; try done; intros; lia).
  case_bool_decide as Hv.
  - cbn. repeat split; try done; intros; lia.
  - pose proof (Qcnot_lt_le _ _ Hv) as Hle.
    destruct (ScoutAgent.momentum_above _ _ _);
      [|destruct (ScoutAgent.momentum_below _ _ _)];
      cbn; repeat split; try done; intros; lia.
Qed.


(** X17.  The analyst passes the strategy's signal or withholds it,
    nothing else.  When [analyze] returns, the strategy returned a signal,
    and the proposal is that signal or HOLD.  Without the alignment
    requirement it is that signal.  With the requirement a proposal other
    than HOLD agrees with both the strategy and the scout, and a strategy
    signal that the scout shares is passed on.  The call keeps the
    analyst's memory and its alignment mode, and records the proposal.
    [analyze] raises exactly when the strategy raises. *)
Theorem analyst_passes_or_withholds
    (a : AnalystAgent.t) (st : StrategyEngine.t)
    (ss : ScoutAgent.Decision) (hist : list Qc) :
  (∀ a' d,
     AnalystAgent.analyze rolling_mean a st ss hist = Ok (a', d) →
     ∃ sma,
       StrategyEngine.generate_signal rolling_mean st hist = Ok sma
       ∧ (AnalystAgent.signal d = sma ∨ AnalystAgent.signal d = HOLD)
       ∧ (AnalystAgent.requires_scout_alignment a = false →
          AnalystAgent.signal d = sma)
       ∧ (AnalystAgent.requires_scout_alignment a = true →
          AnalystAgent.signal d ≠ HOLD →
          AnalystAgent.signal d = ScoutAgent.signal ss)
       ∧ (AnalystAgent.requires_scout_alignment a = true →
          sma = ScoutAgent.signal ss → AnalystAgent.signal d = sma)
       ∧ AnalystAgent.memory a' = AnalystAgent.memory a
       ∧ AnalystAgent.requires_scout_alignment a'
         = AnalystAgent.requires_scout_alignment a
       ∧ AnalystAgent.last_decision a' = Some d
       ∧ AnalystAgent.status a' = AnalystAgent.Analyzed (AnalystAgent.signal d))
  ∧ (∀ e, AnalystAgent.analyze rolling_mean a st ss hist = Raise e
          ↔ StrategyEngine.generate_signal rolling_mean st hist = Raise e).
Proof.
  unfold AnalystAgent.analyze.
  destruct (StrategyEngine.generate_signal rolling_mean st hist) as [sma|err]; cbn.
  - split; [|intros e; split; done].
    intros a' d [= <- <-]. exists sma. split; [done|].
    destruct (AnalystAgent.requires_scout_alignment a) eqn:Hreq;
      destruct sma; cbn;
      try (destruct (ScoutAgent.signal ss) eqn:Hss; cbn);
      repeat split; auto; try done; try (intros; congruence).
  - split; [done|]. intros e. split; by intros [= ->].
Qed.

(** X18.  The alignment requirement is a sticky switch.  After a settled
    trade it is on if the streak stands at -2 or below, off if the streak
    stands at 2 or above, and as it was before for a streak in between.
    In particular one win after a run of losses does not lift it. *)
Theorem alignment_is_a_sticky_switch (a : AnalystAgent.t) (pnl : Qc) :
  ((streak_of (update_memory a pnl) ≤ -2)%Z →
   AnalystAgent.requires_scout_alignment (update_memory a pnl) = true)
  ∧ ((2 ≤ streak_of (update_memory a pnl))%Z →
     AnalystAgent.requires_scout_alignment (update_memory a pnl) = false)
  ∧ ((-2 < streak_of (update_memory a pnl) < 2)%Z →
     AnalystAgent.requires_scout_alignment (update_memory a pnl)
     = AnalystAgent.requires_scout_alignment a)
  ∧ (0 < pnl → (streak_of a ≤ 0)%Z →
     AnalystAgent.requires_scout_alignment (update_memory a pnl)
     = AnalystAgent.requires_scout_alignment a).
Proof.
  assert (∀ b : AnalystAgent.t,
            ((current_streak (AnalystAgent.memory b) ≤ -2)%Z →
             AnalystAgent.requires_scout_alignment (AnalystAgent._adapt b) = true)
            ∧ ((2 ≤ current_streak (AnalystAgent.memory b))%Z →
               AnalystAgent.requires_scout_alignment (AnalystAgent._adapt b) = false)
            ∧ ((-2 < current_streak (AnalystAgent.memory b) < 2)%Z →
               AnalystAgent.requires_scout_alignment (AnalystAgent._adapt b)
               = AnalystAgent.requires_scout_alignment b)) as Hadapt.
  { intros b. unfold AnalystAgent._adapt.
    repeat split; intros; repeat case_bool_decide; cbn; try done; lia. }
  rewrite streak_of_update_memory.
  unfold update_memory. cbn [_adapt set_memory get_memory AnalystAgent.agent].
  set (b := {| AnalystAgent.name := AnalystAgent.name a;
               AnalystAgent.status := AnalystAgent.status a;
               AnalystAgent.last_decision := AnalystAgent.last_decision a;
               AnalystAgent.memory := record_outcome (AnalystAgent.memory a) pnl;
               AnalystAgent.requires_scout_alignment :=
                 AnalystAgent.requires_scout_alignment a |}).
  destruct (Hadapt b) as (H1 & H2 & H3). cbn in H1, H2, H3.
  split; [exact H1|]. split; [exact H2|]. split; [exact H3|].
  intros Hpos Hs. apply H3.
  rewrite (record_outcome_win _ _ Hpos). unfold streak_of in Hs. cbn in Hs.
  rewrite bool_decide_eq_false_2 by lia. lia.
Qed.

(** Two losses turn the requirement on; the win that follows leaves it
    on. *)
Lemma alignment_is_a_sticky_switch_witness :
  AnalystAgent.requires_scout_alignment
    (after_outcomes AnalystAgent.init [- 1; - 1; 1]) = true.
Proof.
  destruct (alignment_is_a_sticky_switch
              (after_outcomes AnalystAgent.init [- 1; - 1]) 1)
    as (_ & _ & _ & Hwin).
  change (after_outcomes AnalystAgent.init [- 1; - 1; 1])
    with (update_memory (after_outcomes AnalystAgent.init [- 1; - 1]) 1).
  rewrite Hwin; [reflexivity | by vm_compute | by vm_compute].
Defined.

End ScoutAnalyst.

(** ** The cycle, continued *)

Section CycleMore.
Import BaseAgent PortfolioEngine.

Variable rolling_mean : Z → list Qc → Result (list (option Qc)).
Variable returns_volatility : list Qc → Qc.

Lemma decide_cycle_engines (e e1 : ExecutionEngine.t) (sym : string) (price : Qc)
    (hist : list Qc) (inputs : Qc * Qc) (d : RiskGuardianAgent.Decision) :
  ExecutionEngine.decide_cycle rolling_mean returns_volatility e sym price hist
  = Ok (e1, inputs, d) →
  ExecutionEngine.risk e1 = ExecutionEngine.risk e
  ∧ ExecutionEngine.strategy e1 = ExecutionEngine.strategy e.
Proof.
  intros Hd.
  by destruct (decide_cycle_inv _ _ _ _ _ _ _ _ _ Hd) as (? & ? & ? & _ & _ & _ & ->).
Qed.

(** X20.  One cycle, one line.  A cycle that returns leaves the risk
    limits and the strategy windows alone and appends at most one entry
    to the trade log, after the entries already there.  Without a new
    entry the ledger is unchanged.  A new entry is for the cycle's symbol
    at the cycle's price, its value is amount times price, and when it
    records a purchase refused for lack of funds the ledger is unchanged
    too. *)
Theorem cycle_appends_at_most_one_entry
    (e e2 : ExecutionEngine.t) (sym : string) (price : Qc) (hist : list Qc) :
  ExecutionEngine.execute_cycle rolling_mean returns_volatility e sym price hist = Ok e2 →
  ExecutionEngine.risk e2 = ExecutionEngine.risk e
  ∧ ExecutionEngine.strategy e2 = ExecutionEngine.strategy e
  ∧ ((ExecutionEngine.trade_history e2 = ExecutionEngine.trade_history e
      ∧ ExecutionEngine.portfolio e2 = ExecutionEngine.portfolio e)
     ∨ ∃ entry,
         ExecutionEngine.trade_history e2
         = ExecutionEngine.trade_history e ++ [entry]
         ∧ ExecutionEngine.symbol entry = sym
         ∧ ExecutionEngine.price entry = price
         ∧ ExecutionEngine.value entry = ExecutionEngine.amount entry * price
         ∧ (ExecutionEngine.action entry = ExecutionEngine.REJECTED_FUNDS →
            ExecutionEngine.portfolio e2 = ExecutionEngine.portfolio e)).
Proof.
  unfold ExecutionEngine.execute_cycle.
  destruct (ExecutionEngine.decide_cycle _ _ _ _ _ _) as [[[e1 inputs] d]|] eqn:Hd;
    cbn; [|done].
  destruct (decide_cycle_frame _ _ _ _ _ _ _ _ _ Hd) as (Hpf & Hlog & _).
  destruct (decide_cycle_engines _ _ _ _ _ _ _ Hd) as (Hrisk & Hstrat).
  unfold ExecutionEngine.settle. case_bool_decide as Hbuy.
  { destruct (add_position _ _ _ _) as [[p' ok]|] eqn:Hadd; cbn; [|done].
    destruct ok; intros [= <-]; cbn.
    - split; [done|]. split; [done|]. right. eexists.
      rewrite Hlog. split; [reflexivity|]. cbn. done.
    - split; [done|]. split; [done|]. right. eexists.
      rewrite Hlog. split; [reflexivity|]. cbn.
      repeat split; try done. intros _.
      apply add_position_false in Hadd as [-> _]. done. }
  case_bool_decide as Hsell; [|intros [= <-]; split; [done|]; split; [done|]; by left].
  unfold get_position.
  destruct (positions (ExecutionEngine.portfolio e1) !! sym) as [pos|] eqn:Hpos;
    [|intros [= <-]; split; [done|]; split; [done|]; by left].
  case_bool_decide as Hheld;
    [|intros [= <-]; split; [done|]; split; [done|]; by left].
  rewrite (remove_position_ok _ _ _ _ pos Hpos) by apply Qcle_refl.
  intros [= <-]. cbn. split; [done|]. split; [done|]. right. eexists.
  rewrite Hlog. split; [reflexivity|]. cbn. done.
Qed.

(** X22.  The lock-out.  Once the guardian is cooling down on a streak
    of -3 or below, the coordinator never trades again: with positive
    strategy windows (for which pandas computes its rolling means) every
    further cycle, on any symbol, price and
    history, returns with the ledger, the trade log and the outcome
    counters of all three agents unchanged, and with the guardian still
    cooling down on the same streak.  (Only a settled sale changes the
    streak, and a blocked guardian approves none.) *)
Theorem locked_out_coordinator_never_trades
    (cycles : list Cycle) (e : ExecutionEngine.t) :
  rolling_spec rolling_mean →
  strategy_wf (ExecutionEngine.strategy e) →
  (streak_of (ExecutionEngine.guardian e) ≤ -3)%Z →
  (1 ≤ RiskGuardianAgent.cooldown_cycles_remaining (ExecutionEngine.guardian e))%Z →
  ∃ e',
    run_cycles rolling_mean returns_volatility e cycles = Ok e'
    ∧ ExecutionEngine.portfolio e' = ExecutionEngine.portfolio e
    ∧ ExecutionEngine.trade_history e' = ExecutionEngine.trade_history e
    ∧ ScoutAgent.memory (ExecutionEngine.scout e')
      = ScoutAgent.memory (ExecutionEngine.scout e)
    ∧ AnalystAgent.memory (ExecutionEngine.analyst e')
      = AnalystAgent.memory (ExecutionEngine.analyst e)
    ∧ outcomes (RiskGuardianAgent.memory (ExecutionEngine.guardian e'))
      = outcomes (RiskGuardianAgent.memory (ExecutionEngine.guardian e))
    ∧ (1 ≤ RiskGuardianAgent.cooldown_cycles_remaining
             (ExecutionEngine.guardian e'))%Z.
Proof.
  intros Hpandas. revert e.
  induction cycles as [|c cycles IH]; intros e Hwf Hs Hc.
  - exists e. by cbn.
  - cbn [run_cycles].
    unfold ExecutionEngine.execute_cycle, ExecutionEngine.decide_cycle,
      ExecutionEngine.risk_inputs.
    destruct (ScoutAgent.scan returns_volatility (ExecutionEngine.scout e)
                (cycle_history c)) as [scout' ss] eqn:Hscan.
    destruct (analyze_total rolling_mean (ExecutionEngine.analyst e)
                (ExecutionEngine.strategy e) ss (cycle_history c))
      as (analyst' & proposal & Han);
      [done | unfold strategy_wf in Hwf; lia..|].
    rewrite Han. cbn.
    destruct (evaluate_stays_blocked (ExecutionEngine.guardian e)
                (ExecutionEngine.risk e)
                (mkCall proposal
                   (get_portfolio_value (ExecutionEngine.portfolio e)
                      {[cycle_symbol c := cycle_price c]})
                   (ExecutionEngine.total_open_value_of
                      (get_all_positions (ExecutionEngine.portfolio e))
                      {[cycle_symbol c := cycle_price c]})
                   (cycle_price c)) Hs Hc) as (g' & Hev & Hs' & Hc').
    cbn in Hev. rewrite Hev. cbn.
    pose proof (evaluate_outcomes _ _ _ _ _ _ _ _ Hev) as Hout.
    destruct (IH (ExecutionEngine.with_agents e scout' analyst' g'))
      as (e' & Hrun & Hpf & Hlog & Hsc & Han' & Hg & Hcd); [done..|].
    pose proof (scan_memory returns_volatility (ExecutionEngine.scout e)
                  (cycle_history c)) as Hm.
    rewrite Hscan in Hm.
    exists e'. split; [exact Hrun|]. cbn in *.
    split; [done|]. split; [done|].
    split; [by rewrite Hsc|].
    split; [rewrite Han'; by eapply analyze_memory|].
    split; [by rewrite Hg|done].
Qed.

(** The guardian returns no BUY decision. *)
Lemma evaluate_never_buys (g g' : RiskGuardianAgent.t) (risk : RiskEngine.t)
    (p : AnalystAgent.Decision) (pv tov price : Qc) (d : RiskGuardianAgent.Decision) :
  RiskGuardianAgent.evaluate g risk p pv tov price = Ok (g', d) →
  RiskGuardianAgent.signal d ≠ BUY.
Proof.
  unfold RiskGuardianAgent.evaluate.
  case_bool_decide; [case_bool_decide; by intros [= _ <-]|].
  case_bool_decide; [by intros [= _ <-]|].
  case_bool_decide; [by intros [= _ <-]|].
  by rewrite calculate_position_size_kw_portfolio_value.
Qed.

(** X26.  The coordinator never buys.  A cycle in which the analyst
    proposes BUY while the guardian is not cooling down raises TypeError,
    from the guardian's sizing call.  A cycle that returns has therefore
    either left the ledger and the trade log as they were, or sold the
    whole position held in its symbol and logged the sale: no cycle adds
    a position, takes cash from the balance, or logs a BUY or a
    REJECTED_FUNDS entry. *)
Theorem coordinator_never_buys
    (e : ExecutionEngine.t) (sym : string) (price : Qc) (hist : list Qc) :
  (∀ analyst' proposal,
     AnalystAgent.analyze rolling_mean (ExecutionEngine.analyst e)
       (ExecutionEngine.strategy e)
       (ScoutAgent.scan returns_volatility (ExecutionEngine.scout e) hist).2 hist
     = Ok (analyst', proposal) →
     AnalystAgent.signal proposal = BUY →
     (RiskGuardianAgent.cooldown_cycles_remaining (ExecutionEngine.guardian e) ≤ 0)%Z →
     ExecutionEngine.execute_cycle rolling_mean returns_volatility e sym price hist
     = Raise TypeError)
  ∧ (∀ e2,
       ExecutionEngine.execute_cycle rolling_mean returns_volatility e sym price hist
       = Ok e2 →
       (ExecutionEngine.portfolio e2 = ExecutionEngine.portfolio e
        ∧ ExecutionEngine.trade_history e2 = ExecutionEngine.trade_history e)
       ∨ ∃ pos entry,
           positions (ExecutionEngine.portfolio e) !! sym = Some pos
           ∧ 0 < amount pos
           ∧ cash_balance (ExecutionEngine.portfolio e2)
             = cash_balance (ExecutionEngine.portfolio e) + amount pos * price
           ∧ positions (ExecutionEngine.portfolio e2)
             = delete sym (positions (ExecutionEngine.portfolio e))
           ∧ ExecutionEngine.trade_history e2
             = ExecutionEngine.trade_history e ++ [entry]
           ∧ ExecutionEngine.action entry = ExecutionEngine.LogSELL
           ∧ ExecutionEngine.amount entry = amount pos).
Proof.
  split.
  - intros analyst' proposal Han Hbuy Hcool.
    unfold ExecutionEngine.execute_cycle.
    rewrite (decide_cycle_evaluate _ _ _ _ _ _ _ _ Han).
    by rewrite (evaluate_buy _ _ _ _ _ _ Hbuy Hcool).
  - intros e2. unfold ExecutionEngine.execute_cycle.
    destruct (ExecutionEngine.decide_cycle _ _ _ _ _ _) as [[[e1 inputs] d]|] eqn:Hd;
      cbn; [|done].
    destruct (decide_cycle_frame _ _ _ _ _ _ _ _ _ Hd) as (Hpf & Hlog & _).
    destruct (decide_cycle_inv _ _ _ _ _ _ _ _ _ Hd)
      as (analyst' & proposal & guardian' & _ & _ & Hev & _).
    pose proof (evaluate_never_buys _ _ _ _ _ _ _ _ Hev) as Hnobuy.
    destruct (decide (RiskGuardianAgent.signal d = SELL)) as [Hsell|Hnosell].
    + destruct (positions (ExecutionEngine.portfolio e1) !! sym) as [pos|] eqn:Hpos.
      * destruct (Qclt_le_dec 0 (amount pos)) as [Hheld|Hnone].
        -- rewrite (settle_sell_held _ _ _ _ pos Hsell Hpos Hheld). cbn zeta.
           intros [= <-]. right. eexists pos, _. cbn.
           rewrite <-Hpf, Hlog. split; [done|]. split; [done|]. split; [done|].
           split; [done|]. split; [reflexivity|]. by cbn.
        -- rewrite settle_sell_nothing_held; [|done|].
           ++ intros [= <-]. by left.
           ++ unfold held_amount. rewrite Hpos. by apply Qcle_not_lt.
      * rewrite settle_sell_nothing_held; [|done|].
        -- intros [= <-]. by left.
        -- unfold held_amount. rewrite Hpos. intros H. by apply Qclt_not_eq in H.
    + unfold ExecutionEngine.settle.
      rewrite (bool_decide_eq_false_2 (_ = BUY)) by done.
      rewrite (bool_decide_eq_false_2 (_ = SELL)) by done.
      intros [= <-]. by left.
Qed.

End CycleMore.

(** A coordinator that holds one unit, and a cycle that sells it: one
    SELL entry, limits and windows untouched. *)
Lemma cycle_appends_at_most_one_entry_witness :
  ∃ e2,
    ExecutionEngine.execute_cycle exact_rolling_mean unread_volatility
      engine_holding "BTCUSDT" (qc 90 1) falling_closes = Ok e2
    ∧ ExecutionEngine.risk e2 = ExecutionEngine.risk engine_holding
    ∧ ExecutionEngine.strategy e2 = ExecutionEngine.strategy engine_holding.
Proof.
  destruct (ExecutionEngine.execute_cycle exact_rolling_mean unread_volatility
              engine_holding "BTCUSDT" (qc 90 1) falling_closes) as [e2|] eqn:He.
  - destruct (cycle_appends_at_most_one_entry exact_rolling_mean unread_volatility
                engine_holding e2 "BTCUSDT" (qc 90 1) falling_closes He)
      as (Hr & Hs & _).
    exists e2. split; [reflexivity|]. split; [exact Hr | exact Hs].
  - exfalso. revert He. vm_compute. discriminate.
Defined.

(** A coordinator whose guardian has been told of three losses: a
    hundred cycles on an empty history change neither ledger nor log. *)
Lemma locked_out_coordinator_never_trades_witness :
  ∃ e',
    run_cycles exact_rolling_mean unread_volatility engine_cooling
      (replicate 100 idle_cycle) = Ok e'
    ∧ ExecutionEngine.portfolio e' = ExecutionEngine.portfolio engine_cooling
    ∧ ExecutionEngine.trade_history e'
      = ExecutionEngine.trade_history engine_cooling.
Proof.
  destruct (locked_out_coordinator_never_trades exact_rolling_mean unread_volatility
              (replicate 100 idle_cycle) engine_cooling)
    as (e' & Hrun & Hpf & Hlog & _).
  - exact exact_rolling_spec.
  - unfold strategy_wf. vm_compute. split; reflexivity.
  - vm_compute. discriminate.
  - vm_compute. discriminate.
  - exists e'. split; [exact Hrun|]. split; [exact Hpf | exact Hlog].
Defined.

(** Windows 1 and 2 on three closes that end in a rise: the analyst
    proposes BUY, the fresh guardian is not cooling down, and the cycle
    raises. *)
Lemma coordinator_never_buys_witness :
  ExecutionEngine.execute_cycle exact_rolling_mean unread_volatility
    engine_quick "BTCUSDT" (qc 12 1) rising_closes = Raise TypeError.
Proof.
  destruct (coordinator_never_buys exact_rolling_mean unread_volatility
              engine_quick "BTCUSDT" (qc 12 1) rising_closes) as [Hraise _].
  eapply Hraise.
  - reflexivity.
  - reflexivity.
  - by vm_compute.
Defined.

(** ** The price feed (data_engine.py) *)

Section Feed.
Import DataEngine.

Lemma initialize_symbol_lookup (d : DataEngine.t) (symbol : string) :
  current_prices (_initialize_symbol d symbol) !! symbol
  = Some (default (starting_price symbol) (current_prices d !! symbol)).
Proof.
  unfold _initialize_symbol.
  destruct (current_prices d !! symbol) as [p|] eqn:H; cbn; [done|].
  apply lookup_insert_eq.
Qed.


(** X23.  [_initialize_symbol] fills in a missing price and never
    overwrites one: a symbol that has a price keeps the whole map as it
    is, a symbol without one enters at 60000 if its name contains "BTC",
    else at 3000 if it contains "ETH", else at 100; other symbols are
    never touched, and a second call changes nothing. *)
Theorem initialize_symbol_fills_in_once (d : DataEngine.t) (symbol : string) :
  (is_Some (current_prices d !! symbol) → _initialize_symbol d symbol = d)
  ∧ (current_prices d !! symbol = None →
     current_prices (_initialize_symbol d symbol) !! symbol
     = Some (if contains "BTC" symbol then qc 60000 1
             else if contains "ETH" symbol then qc 3000 1
             else qc 100 1))
  ∧ (∀ other, other ≠ symbol →
       current_prices (_initialize_symbol d symbol) !! other
       = current_prices d !! other)
  ∧ _initialize_symbol (_initialize_symbol d symbol) symbol
    = _initialize_symbol d symbol.
Proof.
  split; [|split; [|split]].
  - intros [p Hp]. unfold _initialize_symbol. by rewrite Hp.
  - intros Hnone. by rewrite initialize_symbol_lookup, Hnone.
  - intros other Hne. unfold _initialize_symbol.
    destruct (current_prices d !! symbol); [done|]. cbn.
    by rewrite lookup_insert_ne.
  - unfold _initialize_symbol at 1.
    by rewrite initialize_symbol_lookup.
Qed.










End Feed.
